(** * ScrambleSuit session tickets (sessionticket.py)

    A shallow embedding of [sessionticket.py]: the ticket parser
    [decryptTicket], the class [ProtocolState] (constructor, [isValid],
    [__repr__]) and the class [SessionTicket] (constructor, [issue]).

    Python 2 byte strings are lists of bytes.  Exceptions, the calls made to
    the PyCrypto primitives and to the random source of [mycrypto], and the
    log records are explicit: a computation yields the trace of its external
    calls together with either a returned value or the exception it raised.  The PyCrypto primitives (AES-CBC,
    HMAC-SHA256), the random source of [mycrypto] and the values of the
    module [const] are not part of the file; they are parameters. *)

From Stdlib Require Import ZArith List Lia Bool String.
From Stdlib Require Import Strings.Byte.
Import ListNotations.
Local Open Scope Z_scope.

(** ** Byte strings *)

Definition bytes : Type := list byte.

Fixpoint bytes_eqb (a b : bytes) : bool :=
  match a, b with
  | [], [] => true
  | x :: a', y :: b' => Byte.eqb x y && bytes_eqb a' b'
  | _, _ => false
  end.

Definition len (s : bytes) : Z := Z.of_nat (List.length s).

(** Python's index normalisation for a slice bound: a negative bound counts
    from the end, and every bound is clamped to [0, len]. *)
Definition clamp_index (n i : Z) : Z :=
  if i <? 0 then Z.max 0 (n + i) else Z.min i n.

(** [s[lo:hi]]; [None] is an omitted bound. *)
Definition slice (lo hi : option Z) (s : bytes) : bytes :=
  let n := len s in
  let a := match lo with None => 0 | Some i => clamp_index n i end in
  let b := match hi with None => n | Some j => clamp_index n j end in
  firstn (Z.to_nat (b - a)) (skipn (Z.to_nat a) s).

(** ** Python values an attribute may hold *)

Inductive pyval : Type :=
| PyNone
| PyInt (n : Z)
| PyStr (s : bytes).

Definition truthy (v : pyval) : bool :=
  match v with
  | PyNone => false
  | PyInt n => negb (n =? 0)
  | PyStr s => negb (bytes_eqb s [])
  end.

(** ** Exceptions, external calls and the computation monad *)

Inductive exn : Type :=
| AssertionError
| NameError (name : string)
| TypeError
| ValueError.

Inductive outcome (A : Type) : Type :=
| Returned (a : A)
| Raised (e : exn).
Arguments Returned {A} a.
Arguments Raised {A} e.

Inductive event : Type :=
| LogDebug (msg : string)
| LogError (msg : string)
| HmacDigest (key msg : bytes)
| AesNew (key iv : bytes)
| AesEncrypt (key iv plain : bytes)
| AesDecrypt (key iv cipher : bytes)
| WeakRandom (n : Z)
| StrongRandom (n : Z).

Definition M (A : Type) : Type := (list event * outcome A)%type.

Definition ret {A} (a : A) : M A := ([], Returned a).

Definition raise {A} (e : exn) : M A := ([], Raised e).

Definition emit (ev : event) : M unit := ([ev], Returned tt).

Definition bind {A B} (m : M A) (k : A -> M B) : M B :=
  match m with
  | (t, Returned a) => let (t', r) := k a in (t ++ t', r)
  | (t, Raised e) => (t, Raised e)
  end.

Notation "x <- m ;; k" := (bind m (fun x => k))
  (at level 61, m at next level, right associativity).
Notation "m ;;; k" := (bind m (fun _ => k))
  (at level 61, right associativity).

Definition py_assert (b : bool) : M unit :=
  if b then ret tt else raise AssertionError.

Definition trace {A} (m : M A) : list event := fst m.
Definition result {A} (m : M A) : outcome A := snd m.

Definition is_aes_event (ev : event) : bool :=
  match ev with
  | AesNew _ _ | AesEncrypt _ _ _ | AesDecrypt _ _ _ => true
  | _ => false
  end.

(** The key and the IV a cipher event works with. *)
Definition cipher_use (ev : event) : option (bytes * bytes) :=
  match ev with
  | AesNew key iv | AesEncrypt key iv _ | AesDecrypt key iv _ =>
      Some (key, iv)
  | _ => None
  end.

Definition is_random_event (ev : event) : bool :=
  match ev with
  | WeakRandom _ | StrongRandom _ => true
  | _ => false
  end.

(** ** Module constants *)

Definition NAME_LENGTH : Z := 16.
Definition IV_LENGTH : Z := 16.
Definition IDENTIFIER : bytes := list_byte_of_string "ScrambleSuitTicket".

(** [AES.block_size] of PyCrypto. *)
Definition AES_block_size : Z := 16.

(** Modelled from the spec: [const.SESSION_TICKET_LENGTH]; the module [const]
    is not among the sources, the spec fixes the ticket length to 112. *)
Definition SESSION_TICKET_LENGTH : Z := 112.

(** ** The module's global names

    [decryptTicket] and [isValid] read names that the file never binds:
    [keyName], [globalHMACKey], [globalAESKey], [log] and (in [isValid])
    [issueDate].  A name is looked up in the module's namespace when the
    statement runs; an unbound one raises [NameError]. *)
Record Globals : Type := {
  g_keyName : option bytes;
  g_globalHMACKey : option bytes;
  g_globalAESKey : option bytes;
  g_log : bool;
  g_issueDate : option pyval
}.

(** The namespace exactly as the file leaves it. *)
Definition module_globals : Globals :=
  {| g_keyName := None; g_globalHMACKey := None; g_globalAESKey := None;
     g_log := false; g_issueDate := None |}.

Definition global {A} (name : string) (binding : option A) : M A :=
  match binding with
  | Some v => ret v
  | None => raise (NameError name)
  end.

Definition log_debug (g : Globals) (msg : string) : M unit :=
  if g_log g then emit (LogDebug msg) else raise (NameError "log").

Definition log_error (g : Globals) (msg : string) : M unit :=
  if g_log g then emit (LogError msg) else raise (NameError "log").

(** ** class ProtocolState *)

Record ProtocolState : Type := {
  identifier : bytes;
  masterKey : bytes;
  issueDate : pyval;
  pad : bytes
}.

(** [ProtocolState.__init__]; [issueDate_arg] is [None] when the caller
    leaves the argument to its default.  The body never reads it. *)
Definition ProtocolState_init (masterKey_arg : bytes)
    (issueDate_arg : option pyval) : ProtocolState :=
  {| identifier := IDENTIFIER;
     masterKey := masterKey_arg;
     issueDate := PyNone;
     pad := [x00; x00; x00; x00] |}.

Definition set_issueDate (self : ProtocolState) (v : pyval) : ProtocolState :=
  {| identifier := identifier self;
     masterKey := masterKey self;
     issueDate := v;
     pad := pad self |}.

(** [int - x] for the attribute values modelled: [None] and strings raise
    [TypeError].  Other numbers (a float, say), on which Python's
    subtraction is defined, are not among the values modelled. *)
Definition int_sub (a : Z) (v : pyval) : M Z :=
  match v with
  | PyInt b => ret (a - b)
  | _ => raise TypeError
  end.

(** [ProtocolState.__repr__]: [+] on anything but strings raises. *)
Definition ProtocolState_repr (self : ProtocolState) : M bytes :=
  match issueDate self with
  | PyStr d => ret (d ++ identifier self ++ masterKey self ++ pad self)
  | _ => raise TypeError
  end.

(** ** "%d" formatting of the clock reading *)

Definition digit_byte (d : Z) : byte :=
  match Byte.of_N (Z.to_N (48 + d)) with
  | Some b => b
  | None => x30
  end.

Fixpoint decimal_digits (fuel : nat) (n : Z) (acc : bytes) : bytes :=
  match fuel with
  | O => acc
  | S fuel' =>
      let acc' := digit_byte (n mod 10) :: acc in
      if n / 10 =? 0 then acc' else decimal_digits fuel' (n / 10) acc'
  end.

(** ["%d" % n]; a number has no more decimal digits than binary ones. *)
Definition format_d (n : Z) : bytes :=
  if n <? 0
  then x2d :: decimal_digits (S (Z.to_nat (Z.log2 (- n)))) (- n) []
  else decimal_digits (S (Z.to_nat (Z.log2 n))) n [].

Definition is_digit (b : byte) : bool :=
  let c := Z.of_N (Byte.to_N b) in (48 <=? c) && (c <=? 57).

(** ** A reference instance of the external primitives

    Small stand-ins with the interface of the PyCrypto and [mycrypto] calls,
    used to run the module on concrete inputs: a block "cipher" that accepts
    what PyCrypto accepts (key of 16, 24 or 32 bytes, IV of 16 bytes, data a
    multiple of the block size) and reverses the data, a keyed "digest" of 32
    bytes, and a random source that hands out the bytes of a counter. *)

Definition ref_aes_new_ok (key iv : bytes) : bool :=
  ((len key =? 16) || (len key =? 24) || (len key =? 32)) && (len iv =? 16).

Definition ref_aes (key iv data : bytes) : option bytes :=
  if len data mod 16 =? 0 then Some (rev data) else None.

(** The first byte of the key and of the message, then 30 zero bytes. *)
Definition ref_hmac (key msg : bytes) : bytes :=
  hd x00 key :: hd x00 msg :: repeat x00 30.

Definition ref_random (n : Z) (seed : N) : bytes * N :=
  (repeat (match Byte.of_N (N.modulo seed 256) with
           | Some b => b
           | None => x00
           end) (Z.to_nat n),
   N.succ seed).

(** * Byte strings, slices and decimal formatting *)

(** ** Byte strings and slices *)

Lemma bytes_eqb_eq (a b : bytes) : bytes_eqb a b = true <-> a = b.
Proof.
  revert b; induction a as [|x a IH]; intros [|y b]; simpl;
    try (split; [discriminate | discriminate]); try tauto.
  rewrite andb_true_iff, IH. split.
  - intros [Hxy ->]. now rewrite (Byte.byte_dec_bl _ _ Hxy).
  - intros [= -> ->]. split; [now apply Byte.byte_dec_lb | reflexivity].
Qed.

Lemma bytes_eqb_refl (a : bytes) : bytes_eqb a a = true.
Proof. now apply bytes_eqb_eq. Qed.

Lemma bytes_eqb_neq (a b : bytes) : a <> b -> bytes_eqb a b = false.
Proof.
  intros H. destruct (bytes_eqb a b) eqn:E; [|reflexivity].
  now apply bytes_eqb_eq in E.
Qed.

Lemma len_app (a b : bytes) : len (a ++ b) = len a + len b.
Proof. unfold len. rewrite length_app. lia. Qed.

(** The slice of [a ++ b ++ c] whose normalised bounds fall on the two ends
    of [b] is [b]. *)
Lemma slice_app3 (a b c : bytes) (lo hi : option Z) :
  match lo with
  | None => 0
  | Some i => clamp_index (len (a ++ b ++ c)) i
  end = len a ->
  match hi with
  | None => len (a ++ b ++ c)
  | Some j => clamp_index (len (a ++ b ++ c)) j
  end = len a + len b ->
  slice lo hi (a ++ b ++ c) = b.
Proof.
  intros Hlo Hhi. unfold slice. cbv zeta. rewrite Hlo, Hhi.
  replace (len a + len b - len a) with (len b) by lia.
  unfold len. rewrite !Nat2Z.id.
  rewrite skipn_app, skipn_all, Nat.sub_diag. simpl.
  rewrite firstn_app, firstn_all, Nat.sub_diag. simpl.
  now rewrite app_nil_r.
Qed.

(** On a string of 112 bytes a bound of [-32] is the bound [80]. *)
Lemma slice_upto_minus32 (t : bytes) :
  len t = 112 -> slice None (Some (-32)) t = slice None (Some 80) t.
Proof. intros H. unfold slice, clamp_index. rewrite H. reflexivity. Qed.

Lemma slice_32_minus32 (t : bytes) :
  len t = 112 -> slice (Some 32) (Some (-32)) t = slice (Some 32) (Some 80) t.
Proof. intros H. unfold slice, clamp_index. rewrite H. reflexivity. Qed.

Lemma slice_from_minus32 (t : bytes) :
  len t = 112 -> slice (Some (-32)) None t = slice (Some 80) None t.
Proof. intros H. unfold slice, clamp_index. rewrite H. reflexivity. Qed.

(** Bounds of a slice of a concatenation of pieces of known length. *)
Ltac slice_bounds :=
  rewrite ?len_app;
  repeat match goal with H : len _ = _ |- _ => rewrite H end;
  reflexivity.

(** The fixed offsets of a wire ticket. *)
Lemma ticket_slices (kn iv ct tag : bytes) :
  len kn = 16 -> len iv = 16 -> len ct = 48 -> len tag = 32 ->
  let t := kn ++ iv ++ ct ++ tag in
  len t = 112
  /\ slice None (Some 16) t = kn
  /\ slice (Some 16) (Some 32) t = iv
  /\ slice (Some 32) (Some 80) t = ct
  /\ slice (Some 80) None t = tag
  /\ slice None (Some 80) t = kn ++ iv ++ ct.
Proof.
  intros Hkn Hiv Hct Htag t. unfold t.
  split; [slice_bounds|].
  split; [|split; [|split; [|split]]].
  - apply (slice_app3 [] kn (iv ++ ct ++ tag)); simpl app; slice_bounds.
  - apply (slice_app3 kn iv (ct ++ tag)); slice_bounds.
  - rewrite (app_assoc kn iv).
    apply (slice_app3 (kn ++ iv) ct tag); slice_bounds.
  - replace (kn ++ iv ++ ct ++ tag) with ((kn ++ iv ++ ct) ++ tag ++ [])
      by (now rewrite app_nil_r, <- !app_assoc).
    apply (slice_app3 (kn ++ iv ++ ct) tag []); slice_bounds.
  - rewrite (app_assoc iv), (app_assoc kn).
    apply (slice_app3 [] (kn ++ iv ++ ct) tag); simpl app; slice_bounds.
Qed.

(** ** Decimal formatting *)

Lemma digit_byte_is_digit (d : Z) : 0 <= d < 10 -> is_digit (digit_byte d) = true.
Proof.
  intros H.
  assert (E : d = 0 \/ d = 1 \/ d = 2 \/ d = 3 \/ d = 4 \/ d = 5 \/ d = 6
              \/ d = 7 \/ d = 8 \/ d = 9) by lia.
  repeat (destruct E as [-> | E]; [reflexivity|]). now subst.
Qed.

Lemma decimal_digits_digits (fuel : nat) : forall n acc,
  0 <= n -> forallb is_digit acc = true ->
  forallb is_digit (decimal_digits fuel n acc) = true.
Proof.
  induction fuel as [|fuel IH]; intros n acc Hn Hacc; simpl; [assumption|].
  assert (Hd : forallb is_digit (digit_byte (n mod 10) :: acc) = true).
  { simpl. rewrite Hacc, digit_byte_is_digit; [reflexivity|].
    apply Z.mod_pos_bound. lia. }
  destruct (n / 10 =? 0); [exact Hd|].
  apply IH; [|exact Hd]. apply Z.div_pos; lia.
Qed.

(** A number with exactly [k] decimal digits is written with [k] bytes, as
    soon as the fuel covers them. *)
Lemma decimal_digits_length (k : nat) : forall fuel n acc,
  (k < fuel)%nat -> 10 ^ Z.of_nat k <= n < 10 ^ Z.of_nat (S k) ->
  List.length (decimal_digits fuel n acc) = (S k + List.length acc)%nat.
Proof.
  induction k as [|k IH]; intros fuel n acc Hf Hn;
    (destruct fuel as [|fuel]; [lia|]); simpl decimal_digits.
  - change (10 ^ Z.of_nat 0) with 1 in Hn. change (10 ^ Z.of_nat 1) with 10 in Hn.
    rewrite Z.div_small by lia. reflexivity.
  - rewrite !Nat2Z.inj_succ, !Z.pow_succ_r in Hn by lia.
    assert (Hp : 0 < 10 ^ Z.of_nat k) by (apply Z.pow_pos_nonneg; lia).
    assert (Hq : 10 ^ Z.of_nat k <= n / 10)
      by (apply Z.div_le_lower_bound; lia).
    assert (Hr : n / 10 < 10 * 10 ^ Z.of_nat k)
      by (apply Z.div_lt_upper_bound; lia).
    destruct (n / 10 =? 0) eqn:E; [apply Z.eqb_eq in E; lia|].
    rewrite IH; [simpl; lia | lia |].
    rewrite Nat2Z.inj_succ, Z.pow_succ_r by lia. lia.
Qed.

(** The fuel of [format_d] never runs out: more of it changes nothing. *)
Lemma decimal_digits_fuel (fuel : nat) : forall fuel' n acc,
  (1 <= fuel <= fuel')%nat -> 0 <= n < 2 ^ Z.of_nat fuel ->
  decimal_digits fuel' n acc = decimal_digits fuel n acc.
Proof.
  induction fuel as [|f IH]; intros fuel' n acc Hf Hn; [lia|].
  destruct fuel' as [|f']; [lia|]. simpl.
  destruct (n / 10 =? 0) eqn:E; [reflexivity|]. apply Z.eqb_neq in E.
  rewrite Nat2Z.inj_succ, Z.pow_succ_r in Hn by lia.
  assert (Hp : 0 < 2 ^ Z.of_nat f) by (apply Z.pow_pos_nonneg; lia).
  apply IH.
  - destruct f as [|f]; [|lia].
    change (2 ^ Z.of_nat 0) with 1 in Hn. rewrite Z.div_small in E; lia.
  - split; [apply Z.div_pos; lia | apply Z.div_lt_upper_bound; lia].
Qed.

Lemma format_d_fuel (n : Z) (extra : nat) :
  0 <= n ->
  decimal_digits (S (Z.to_nat (Z.log2 n)) + extra) n [] = format_d n.
Proof.
  intros Hn. unfold format_d.
  assert (Hlt : (n <? 0) = false) by (apply Z.ltb_ge; lia).
  rewrite Hlt. apply decimal_digits_fuel; [lia|].
  rewrite Nat2Z.inj_succ, Z2Nat.id by apply Z.log2_nonneg.
  destruct (Z.eq_dec n 0) as [-> | Hz]; [simpl; lia|].
  pose proof (Z.log2_spec n). lia.
Qed.

(** A clock reading between 2001-09-09 and 2286-11-20 is written with ten
    digits. *)
Lemma format_d_ten_digits (now : Z) :
  10 ^ 9 <= now < 10 ^ 10 ->
  len (format_d now) = 10 /\ forallb is_digit (format_d now) = true.
Proof.
  intros H. unfold format_d.
  assert (Hlt : (now <? 0) = false) by (apply Z.ltb_ge; lia).
  rewrite Hlt. split.
  - unfold len. rewrite (decimal_digits_length 9); [reflexivity | |exact H].
    assert (29 <= Z.log2 now).
    { change 29 with (Z.log2 (10 ^ 9)). apply Z.log2_le_mono. lia. }
    lia.
  - apply decimal_digits_digits; [lia | reflexivity].
Qed.

Example format_d_sample :
  format_d 1700000000 = list_byte_of_string "1700000000"
  /\ format_d 0 = list_byte_of_string "0"
  /\ format_d (-42) = list_byte_of_string "-42".
Proof. repeat split; vm_compute; reflexivity. Qed.

(** One case of [format_d_at_most_nine_digits]: a number of [k + 1]
    digits. *)
Ltac digits_case k :=
  match goal with
  | |- context [decimal_digits (S (Z.to_nat (Z.log2 ?n))) ?n []] =>
      let L := fresh "L" in
      let v := eval vm_compute in (Z.log2 (10 ^ Z.of_nat k)) in
      assert (L : v <= Z.log2 n)
        by (change v with (Z.log2 (10 ^ Z.of_nat k));
            apply Z.log2_le_mono; simpl; lia);
      rewrite (decimal_digits_length k); [simpl; lia | lia | simpl; lia]
  end.

(** A clock reading before 2001-09-09 is written with fewer than ten
    digits. *)
Lemma format_d_at_most_nine_digits (now : Z) :
  0 <= now < 10 ^ 9 -> 1 <= len (format_d now) <= 9.
Proof.
  intros H. unfold format_d.
  assert (Hlt : (now <? 0) = false) by (apply Z.ltb_ge; lia).
  rewrite Hlt. unfold len.
  destruct (Z.eq_dec now 0) as [-> | Hz]; [vm_compute; split; discriminate|].
  assert (C : now < 10 \/ 10 <= now < 100 \/ 100 <= now < 1000
              \/ 1000 <= now < 10000 \/ 10000 <= now < 100000
              \/ 100000 <= now < 1000000 \/ 1000000 <= now < 10000000
              \/ 10000000 <= now < 100000000
              \/ 100000000 <= now < 1000000000) by lia.
  destruct C as [C | [C | [C | [C | [C | [C | [C | [C | C]]]]]]]].
  - digits_case 0%nat.
  - digits_case 1%nat.
  - digits_case 2%nat.
  - digits_case 3%nat.
  - digits_case 4%nat.
  - digits_case 5%nat.
  - digits_case 6%nat.
  - digits_case 7%nat.
  - digits_case 8%nat.
Qed.

Section SessionTickets.

(** [HMAC.new(key, msg, digestmod=SHA256).digest()]. *)
Variable HMAC_SHA256 : bytes -> bytes -> bytes.

(** Whether [AES.new(key, mode=AES.MODE_CBC, IV=iv)] accepts the key and
    the IV; PyCrypto raises [ValueError] otherwise. *)
Variable AES_new_ok : bytes -> bytes -> bool.

(** [encrypt] and [decrypt] of a CBC cipher object built from a key and an
    IV; [None] is PyCrypto's [ValueError]. *)
Variable AES_CBC_encrypt : bytes -> bytes -> bytes -> option bytes.
Variable AES_CBC_decrypt : bytes -> bytes -> bytes -> option bytes.

(** [const.SESSION_TICKET_LIFETIME]. *)
Variable SESSION_TICKET_LIFETIME : Z.

(** [mycrypto.weak_random] and [mycrypto.strong_random], threading the state
    of the random source. *)
Variable Rng : Type.
Variable weak_random : Z -> Rng -> bytes * Rng.
Variable strong_random : Z -> Rng -> bytes * Rng.

(** *** Calls to the primitives *)

Definition hmac_digest (key msg : bytes) : M bytes :=
  emit (HmacDigest key msg) ;;; ret (HMAC_SHA256 key msg).

(** A cipher object remembers its key and IV. *)
Definition aes_new (key iv : bytes) : M (bytes * bytes) :=
  emit (AesNew key iv) ;;;
  if AES_new_ok key iv then ret (key, iv) else raise ValueError.

Definition aes_encrypt (aes : bytes * bytes) (plain : bytes) : M bytes :=
  emit (AesEncrypt (fst aes) (snd aes) plain) ;;;
  match AES_CBC_encrypt (fst aes) (snd aes) plain with
  | Some c => ret c
  | None => raise ValueError
  end.

Definition aes_decrypt (aes : bytes * bytes) (cipher : bytes) : M bytes :=
  emit (AesDecrypt (fst aes) (snd aes) cipher) ;;;
  match AES_CBC_decrypt (fst aes) (snd aes) cipher with
  | Some p => ret p
  | None => raise ValueError
  end.

(** *** decryptTicket *)

Definition decryptTicket (g : Globals) (ticket : bytes)
    : M (option ProtocolState) :=
  py_assert (len ticket =? SESSION_TICKET_LENGTH) ;;;
  keyName <- global "keyName" (g_keyName g) ;;
  if negb (bytes_eqb (slice None (Some 16) ticket) keyName) then
    log_debug g "Ticket name not found. We are not dealing with a ticket." ;;;
    ret None
  else
    globalHMACKey <- global "globalHMACKey" (g_globalHMACKey g) ;;
    hmac <- hmac_digest globalHMACKey (slice None (Some (-32)) ticket) ;;
    if negb (bytes_eqb hmac (slice (Some (-32)) None ticket)) then
      log_debug g "Invalid HMAC. Probably no ticket." ;;;
      ret None
    else
      globalAESKey <- global "globalAESKey" (g_globalAESKey g) ;;
      aes <- aes_new globalAESKey (slice (Some 16) (Some 32) ticket) ;;
      plainTicket <- aes_decrypt aes (slice (Some 32) (Some (-32)) ticket) ;;
      let issueDate := slice None (Some 10) plainTicket in
      let identifier := slice (Some 10) (Some 28) plainTicket in
      if negb (bytes_eqb identifier IDENTIFIER) then
        log_error g "Invalid identifier. This could be a bug." ;;;
        ret None
      else
        let masterKey := slice (Some 28) (Some 44) plainTicket in
        ret (Some (ProtocolState_init masterKey (Some (PyStr issueDate)))).

(** *** ProtocolState.isValid

    [now] is the clock reading [int(time.time())] of the call. *)
Definition isValid (g : Globals) (now : Z) (self : ProtocolState) : M bool :=
  v <- global "issueDate" (g_issueDate g) ;;
  py_assert (truthy v) ;;;
  age <- int_sub now (issueDate self) ;;
  if age >? SESSION_TICKET_LIFETIME then ret false else ret true.

(** *** class SessionTicket *)

Record SessionTicket : Type := {
  keyName : bytes;
  IV : bytes;
  state : ProtocolState;
  symmTicketKey : bytes;
  hmacTicketKey : bytes
}.

(** The calls [mycrypto.weak_random(n)] and [mycrypto.strong_random(n)]:
    the bytes drawn and the random source afterwards. *)
Definition mycrypto_weak_random (n : Z) (rng : Rng) : M (bytes * Rng) :=
  emit (WeakRandom n) ;;; ret (weak_random n rng).

Definition mycrypto_strong_random (n : Z) (rng : Rng) : M (bytes * Rng) :=
  emit (StrongRandom n) ;;; ret (strong_random n rng).

(** [SessionTicket.__init__]: the name and the IV are drawn here, once. *)
Definition SessionTicket_init (masterKey_arg symmTicketKey_arg
    hmacTicketKey_arg : bytes) (rng : Rng) : M (SessionTicket * Rng) :=
  py_assert ((len masterKey_arg =? len symmTicketKey_arg)
             && (len symmTicketKey_arg =? len hmacTicketKey_arg)
             && (len hmacTicketKey_arg =? 16)) ;;;
  name <- mycrypto_weak_random NAME_LENGTH rng ;;
  iv <- mycrypto_strong_random IV_LENGTH (snd name) ;;
  ret ({| keyName := fst name;
          IV := fst iv;
          state := ProtocolState_init masterKey_arg None;
          symmTicketKey := symmTicketKey_arg;
          hmacTicketKey := hmacTicketKey_arg |}, snd iv).

Definition set_state (self : SessionTicket) (s : ProtocolState)
    : SessionTicket :=
  {| keyName := keyName self;
     IV := IV self;
     state := s;
     symmTicketKey := symmTicketKey self;
     hmacTicketKey := hmacTicketKey self |}.

(** [SessionTicket.issue]; [now] is the clock reading [time.time()] of the
    call, cut to an integer as ["%d"] does.  The first component is the
    object after the call: the assignment to [self.state.issueDate] stays
    whatever happens next. *)
Definition issue (now : Z) (self : SessionTicket)
    : SessionTicket * M (bytes * bytes) :=
  let self' := set_state self (set_issueDate (state self) (PyStr (format_d now))) in
  (self',
   aes <- aes_new (symmTicketKey self') (IV self') ;;
   state_repr <- ProtocolState_repr (state self') ;;
   py_assert (len state_repr mod AES_block_size =? 0) ;;;
   cryptedState <- aes_encrypt aes state_repr ;;
   hmac <- hmac_digest (hmacTicketKey self')
             (keyName self' ++ IV self' ++ cryptedState) ;;
   let ticket := keyName self' ++ IV self' ++ cryptedState ++ hmac in
   ret (keyName self', ticket)).


(** What the constructor establishes and [issue] keeps: 16-byte name, IV
    and keys, and a state with the constructor's identifier and padding. *)
Definition well_formed (self : SessionTicket) : Prop :=
  len (keyName self) = 16
  /\ len (IV self) = 16
  /\ len (symmTicketKey self) = 16
  /\ len (hmacTicketKey self) = 16
  /\ len (masterKey (state self)) = 16
  /\ identifier (state self) = IDENTIFIER
  /\ pad (state self) = [x00; x00; x00; x00].

(** The IVs of the cipher events of a trace, in order. *)
Fixpoint cipher_ivs (t : list event) : list bytes :=
  match t with
  | [] => []
  | AesNew _ iv :: t' => iv :: cipher_ivs t'
  | AesEncrypt _ iv _ :: t' => iv :: cipher_ivs t'
  | AesDecrypt _ iv _ :: t' => iv :: cipher_ivs t'
  | _ :: t' => cipher_ivs t'
  end.

(** * Properties of the module *)

(** ** The PyCrypto and [mycrypto] contracts the properties rest on *)

(** An HMAC-SHA256 digest has 32 bytes. *)
Hypothesis HMAC_SHA256_length :
  forall key msg, len (HMAC_SHA256 key msg) = 32.

(** [AES.new] accepts a 16-byte key with a 16-byte IV. *)
Hypothesis AES_new_accepts :
  forall key iv, len key = 16 -> len iv = 16 -> AES_new_ok key iv = true.

(** CBC encryption of whole blocks succeeds and keeps the length. *)
Hypothesis AES_CBC_encrypt_blocks :
  forall key iv plain,
    AES_new_ok key iv = true -> len plain mod 16 = 0 ->
    exists cipher,
      AES_CBC_encrypt key iv plain = Some cipher /\ len cipher = len plain.

(** Decryption under the same key and IV undoes encryption. *)
Hypothesis AES_CBC_decrypt_encrypt :
  forall key iv plain cipher,
    AES_CBC_encrypt key iv plain = Some cipher ->
    AES_CBC_decrypt key iv cipher = Some plain.

(** The random source returns as many bytes as it is asked for. *)
Hypothesis weak_random_length :
  forall n rng, 0 <= n -> len (fst (weak_random n rng)) = n.
Hypothesis strong_random_length :
  forall n rng, 0 <= n -> len (fst (strong_random n rng)) = n.

(** ** decryptTicket *)

(** C4, as the code has it: an input whose length is not 112 fails the
    assertion that opens [decryptTicket]: the call raises [AssertionError]
    (it does not return [None]) before any name is looked up, any slice is
    taken and any HMAC or AES call is made. *)
Theorem decryptTicket_wrong_length_raises (g : Globals) (ticket : bytes) :
  len ticket <> 112 ->
  decryptTicket g ticket = ([], Raised AssertionError).
Proof using Type.
  intros H. unfold decryptTicket.
  replace (len ticket =? SESSION_TICKET_LENGTH) with false; [reflexivity|].
  symmetry. now apply Z.eqb_neq.
Qed.

(** C2: on a 112-byte input that carries the expected key name, a tag (the
    last 32 bytes) that differs from the HMAC-SHA256 of the first 80 bytes
    makes [decryptTicket] return [None]; the only external calls made are
    the digest and the log record, so no cipher object is created and
    nothing is decrypted. *)
Theorem decryptTicket_bad_mac_rejected (g : Globals) (ticket kn hk : bytes) :
  len ticket = 112 ->
  g_keyName g = Some kn ->
  slice None (Some 16) ticket = kn ->
  g_globalHMACKey g = Some hk ->
  g_log g = true ->
  slice (Some (-32)) None ticket
    <> HMAC_SHA256 hk (slice None (Some 80) ticket) ->
  result (decryptTicket g ticket) = Returned None
  /\ existsb is_aes_event (trace (decryptTicket g ticket)) = false
  /\ trace (decryptTicket g ticket)
     = [HmacDigest hk (slice None (Some 80) ticket);
        LogDebug "Invalid HMAC. Probably no ticket."].
Proof using Type.
  intros Hlen Hkn Hname Hhk Hlog Hmac.
  unfold decryptTicket, log_debug.
  rewrite Hlen, Hkn, Hhk, Hlog, Hname, (slice_upto_minus32 _ Hlen).
  simpl. rewrite bytes_eqb_refl. simpl.
  rewrite (bytes_eqb_neq (HMAC_SHA256 hk _) _) by (intros E; now apply Hmac).
  simpl. repeat split.
Qed.

(** Case analysis on the innermost scrutinee of a hypothesis. *)
Ltac break_inner H :=
  match type of H with
  | context [match ?x with _ => _ end] =>
      lazymatch x with
      | context [match _ with _ => _ end] => fail
      | _ => destruct x eqn:?
      end
  end.

Ltac bool_facts :=
  repeat match goal with
  | H : negb _ = false |- _ => apply negb_false_iff in H
  | H : negb _ = true |- _ => apply negb_true_iff in H
  | H : bytes_eqb _ _ = true |- _ => apply bytes_eqb_eq in H
  | H : (_ =? _) = true |- _ => apply Z.eqb_eq in H
  end.

Ltac run_decryptTicket :=
  unfold decryptTicket, result, trace, bind, py_assert, global, log_debug,
    log_error, hmac_digest, aes_new, aes_decrypt, emit, ret, raise.

(** Whatever the globals and the input, a ticket is accepted only through
    the last line of [decryptTicket]: the name matched, the tag matched, the
    ciphertext decrypted to a plaintext carrying the identifier, and the
    state returned is built by the constructor from slices of it. *)
Lemma decryptTicket_accepts_inv (g : Globals) (ticket : bytes)
    (st : ProtocolState) :
  result (decryptTicket g ticket) = Returned (Some st) ->
  exists hk ak plain,
    len ticket = 112
    /\ g_keyName g = Some (slice None (Some 16) ticket)
    /\ g_globalHMACKey g = Some hk
    /\ HMAC_SHA256 hk (slice None (Some (-32)) ticket)
       = slice (Some (-32)) None ticket
    /\ g_globalAESKey g = Some ak
    /\ AES_CBC_decrypt ak (slice (Some 16) (Some 32) ticket)
         (slice (Some 32) (Some (-32)) ticket) = Some plain
    /\ slice (Some 10) (Some 28) plain = IDENTIFIER
    /\ st = ProtocolState_init (slice (Some 28) (Some 44) plain)
                               (Some (PyStr (slice None (Some 10) plain))).
Proof using Type.
  run_decryptTicket. intros H.
  repeat (break_inner H; simpl in H; try discriminate).
  injection H as <-. bool_facts. subst.
  eexists _, _, _. repeat split; eassumption.
Qed.

(** X1: a cipher object is created, and a decryption attempted, only after
    the name and the tag have matched. *)
Lemma decryptTicket_aes_needs_mac (g : Globals) (ticket : bytes) :
  existsb is_aes_event (trace (decryptTicket g ticket)) = true ->
  exists hk,
    len ticket = 112
    /\ g_keyName g = Some (slice None (Some 16) ticket)
    /\ g_globalHMACKey g = Some hk
    /\ HMAC_SHA256 hk (slice None (Some (-32)) ticket)
       = slice (Some (-32)) None ticket.
Proof using Type.
  run_decryptTicket. intros H.
  repeat (break_inner H; simpl in H; try discriminate);
    bool_facts; subst; eexists; repeat split; eassumption.
Qed.

(** Past the name filter and the tag check, the outcome of [decryptTicket]
    is the identifier test on the decrypted plaintext. *)
Lemma decryptTicket_after_mac (g : Globals) (ticket hk ak plain : bytes) :
  len ticket = 112 ->
  g_keyName g = Some (slice None (Some 16) ticket) ->
  g_globalHMACKey g = Some hk ->
  slice (Some (-32)) None ticket
    = HMAC_SHA256 hk (slice None (Some 80) ticket) ->
  g_globalAESKey g = Some ak ->
  AES_new_ok ak (slice (Some 16) (Some 32) ticket) = true ->
  AES_CBC_decrypt ak (slice (Some 16) (Some 32) ticket)
    (slice (Some 32) (Some 80) ticket) = Some plain ->
  (slice (Some 10) (Some 28) plain = IDENTIFIER ->
   result (decryptTicket g ticket)
   = Returned (Some (ProtocolState_init
                       (slice (Some 28) (Some 44) plain)
                       (Some (PyStr (slice None (Some 10) plain))))))
  /\ (slice (Some 10) (Some 28) plain <> IDENTIFIER ->
      g_log g = true ->
      result (decryptTicket g ticket) = Returned None).
Proof using Type.
  intros Hlen Hkn Hhk Hmac Hak Hnew Hdec.
  run_decryptTicket.
  rewrite Hlen, Hkn, Hhk, Hak, (slice_upto_minus32 _ Hlen),
    (slice_32_minus32 _ Hlen), <- Hmac.
  simpl. rewrite !bytes_eqb_refl. simpl. rewrite Hnew. simpl.
  rewrite Hdec. split.
  - intros Hid. rewrite Hid, bytes_eqb_refl. reflexivity.
  - intros Hid Hlog. rewrite (bytes_eqb_neq _ _ Hid), Hlog. reflexivity.
Qed.

(** C8: on a 112-byte ticket that passed the name filter and the tag check
    and whose ciphertext decrypts to [plain], the outcome is decided by bytes
    10..28 of [plain] alone: [None] when they differ from
    "ScrambleSuitTicket", and otherwise the state built from bytes 28..44
    and 0..10, whatever those and the remaining bytes are. *)
Theorem decryptTicket_identifier_check (g : Globals)
    (ticket hk ak plain : bytes) :
  len ticket = 112 ->
  g_keyName g = Some (slice None (Some 16) ticket) ->
  g_globalHMACKey g = Some hk ->
  slice (Some (-32)) None ticket
    = HMAC_SHA256 hk (slice None (Some 80) ticket) ->
  g_globalAESKey g = Some ak ->
  AES_new_ok ak (slice (Some 16) (Some 32) ticket) = true ->
  AES_CBC_decrypt ak (slice (Some 16) (Some 32) ticket)
    (slice (Some 32) (Some 80) ticket) = Some plain ->
  g_log g = true ->
  IDENTIFIER = list_byte_of_string "ScrambleSuitTicket"
  /\ (slice (Some 10) (Some 28) plain <> IDENTIFIER ->
      result (decryptTicket g ticket) = Returned None)
  /\ (slice (Some 10) (Some 28) plain = IDENTIFIER ->
      result (decryptTicket g ticket)
      = Returned (Some (ProtocolState_init
                          (slice (Some 28) (Some 44) plain)
                          (Some (PyStr (slice None (Some 10) plain)))))).
Proof using Type.
  intros Hlen Hkn Hhk Hmac Hak Hnew Hdec Hlog.
  destruct (decryptTicket_after_mac g ticket hk ak plain) as [Hyes Hno];
    try assumption.
  split; [reflexivity|]. split; intros Hid; auto.
Qed.

(** C10: the constructor stores [None] as [issueDate] whatever it is
    given, so the state of every accepted ticket has [issueDate] equal to
    [None], whatever timestamp the ticket carries. *)
Theorem decryptTicket_issueDate_None (g : Globals) (ticket : bytes)
    (st : ProtocolState) (mk : bytes) (arg : option pyval) :
  result (decryptTicket g ticket) = Returned (Some st) ->
  issueDate (ProtocolState_init mk arg) = PyNone /\ issueDate st = PyNone.
Proof using Type.
  intros H. split; [reflexivity|].
  destruct (decryptTicket_accepts_inv _ _ _ H)
    as (hk & ak & plain & _ & _ & _ & _ & _ & _ & _ & ->).
  reflexivity.
Qed.

(** ** ProtocolState *)

(** C3 on the code: where the claim expects a boolean, [isValid] raises.
    With the namespace as the file leaves it, the assertion reads the
    unbound name [issueDate] and the call raises [NameError] on every state
    and at every clock reading; and were that name bound to a true value,
    the state of an issued ticket holds the string [issue] stored, on
    which the subtraction raises [TypeError]. *)
Theorem isValid_raises_on_issued_state (g : Globals) (v : pyval)
    (now t0 : Z) (self : SessionTicket) (st : ProtocolState) :
  g_issueDate g = Some v ->
  truthy v = true ->
  isValid module_globals now st = ([], Raised (NameError "issueDate"))
  /\ isValid g now (state (fst (issue t0 self))) = ([], Raised TypeError).
Proof using Type.
  intros Hg Hv. split; [reflexivity|].
  unfold isValid. rewrite Hg. simpl. rewrite Hv. reflexivity.
Qed.

(** C7: a state built by the constructor around a 16-byte master key, with
    [issueDate] then set to ten ASCII digits, is written by [__repr__] as
    issueDate, "ScrambleSuitTicket", masterKey and four zero bytes, in that
    order: 48 bytes. *)
Theorem ProtocolState_repr_layout (mk d : bytes) (arg : option pyval) :
  len mk = 16 ->
  len d = 10 ->
  forallb is_digit d = true ->
  let st := set_issueDate (ProtocolState_init mk arg) (PyStr d) in
  ProtocolState_repr st
    = ret (d ++ list_byte_of_string "ScrambleSuitTicket" ++ mk
             ++ [x00; x00; x00; x00])
  /\ identifier st = list_byte_of_string "ScrambleSuitTicket"
  /\ len (identifier st) = 18
  /\ pad st = [x00; x00; x00; x00]
  /\ (forall s, result (ProtocolState_repr st) = Returned s -> len s = 48).
Proof using Type.
  intros Hmk Hd _ st. repeat split.
  intros s H.
  unfold st, ProtocolState_repr, set_issueDate, ProtocolState_init, result,
    ret in H.
  cbn [issueDate identifier masterKey pad snd] in H.
  injection H as <-. unfold len in *. rewrite length_app. simpl.
  rewrite length_app. simpl. lia.
Qed.

(** ** SessionTicket *)

Lemma SessionTicket_init_spec (mk sk hk : bytes) (rng rng' : Rng)
    (self : SessionTicket) :
  result (SessionTicket_init mk sk hk rng) = Returned (self, rng') ->
  well_formed self
  /\ masterKey (state self) = mk
  /\ issueDate (state self) = PyNone
  /\ symmTicketKey self = sk
  /\ hmacTicketKey self = hk
  /\ keyName self = fst (weak_random NAME_LENGTH rng)
  /\ IV self = fst (strong_random IV_LENGTH (snd (weak_random NAME_LENGTH rng))).
Proof using weak_random_length strong_random_length.
  unfold SessionTicket_init, mycrypto_weak_random, mycrypto_strong_random,
    result, bind, py_assert, emit, ret, raise.
  destruct (_ && _) eqn:Hlen; [|discriminate].
  apply andb_true_iff in Hlen. destruct Hlen as [Hlen H3].
  apply andb_true_iff in Hlen. destruct Hlen as [H1 H2].
  apply Z.eqb_eq in H1, H2, H3.
  pose proof (weak_random_length NAME_LENGTH rng) as Hw.
  destruct (weak_random NAME_LENGTH rng) as [name rng1]. cbn [fst snd].
  pose proof (strong_random_length IV_LENGTH rng1) as Hs.
  destruct (strong_random IV_LENGTH rng1) as [iv rng2].
  simpl. intros [= <- <-]. unfold well_formed. simpl in *.
  unfold NAME_LENGTH, IV_LENGTH in *.
  repeat split; try reflexivity; try lia.
Qed.

Lemma issue_well_formed (now : Z) (self : SessionTicket) :
  well_formed self -> well_formed (fst (issue now self)).
Proof using Type. unfold well_formed. simpl. tauto. Qed.

(** With a ten-digit clock reading a well-formed ticket is issued: the three
    external calls made, in order, and the pair returned. *)
Lemma issue_returns (now : Z) (self : SessionTicket) :
  well_formed self ->
  10 ^ 9 <= now < 10 ^ 10 ->
  let plain := format_d now ++ IDENTIFIER ++ masterKey (state self)
                 ++ [x00; x00; x00; x00] in
  exists cipher,
    AES_CBC_encrypt (symmTicketKey self) (IV self) plain = Some cipher
    /\ len cipher = 48
    /\ snd (issue now self)
       = ([AesNew (symmTicketKey self) (IV self);
           AesEncrypt (symmTicketKey self) (IV self) plain;
           HmacDigest (hmacTicketKey self)
             (keyName self ++ IV self ++ cipher)],
          Returned
            (keyName self,
             keyName self ++ IV self ++ cipher
               ++ HMAC_SHA256 (hmacTicketKey self)
                    (keyName self ++ IV self ++ cipher))).
Proof using AES_new_accepts AES_CBC_encrypt_blocks.
  intros (Hkn & Hiv & Hsk & Hhk & Hmk & Hid & Hpad) Hnow plain.
  destruct (format_d_ten_digits now Hnow) as [Hd _].
  assert (Hplain : len plain = 48).
  { unfold plain. rewrite !len_app, Hd, Hmk. reflexivity. }
  pose proof (AES_new_accepts _ _ Hsk Hiv) as Hnew.
  destruct (AES_CBC_encrypt_blocks _ _ plain Hnew) as (cipher & Henc & Hlen).
  { rewrite Hplain. reflexivity. }
  exists cipher. split; [exact Henc|]. split; [congruence|].
  unfold issue, aes_new, ProtocolState_repr, aes_encrypt, hmac_digest,
    py_assert, bind, emit, ret, raise.
  cbn [snd fst state symmTicketKey IV keyName hmacTicketKey set_state
       set_issueDate issueDate identifier masterKey pad app].
  rewrite Hnew, Hid, Hpad. fold plain. rewrite Hplain.
  cbn [Z.modulo Z.eqb AES_block_size]. simpl (48 mod _ =? 0).
  cbn [fst snd]. rewrite Henc. reflexivity.
Qed.

(** C6, as the code has it: a ticket built by the constructor and issued
    at a clock reading of ten decimal digits yields the pair of its name and
    a 112-byte string: the name (16), the IV (16), the AES-CBC encryption
    of the serialized state (48) and the HMAC-SHA256, under the HMAC key,
    of the first 80 bytes (32). *)
Theorem issue_ticket_layout (mk sk hk : bytes) (rng rng' : Rng)
    (self : SessionTicket) (now : Z) :
  result (SessionTicket_init mk sk hk rng) = Returned (self, rng') ->
  10 ^ 9 <= now < 10 ^ 10 ->
  exists ticket cipher,
    result (snd (issue now self)) = Returned (keyName self, ticket)
    /\ len ticket = 112
    /\ ticket = keyName self ++ IV self ++ cipher
                 ++ HMAC_SHA256 hk (keyName self ++ IV self ++ cipher)
    /\ len (keyName self) = 16
    /\ len (IV self) = 16
    /\ len cipher = 48
    /\ len (HMAC_SHA256 hk (keyName self ++ IV self ++ cipher)) = 32
    /\ slice None (Some 16) ticket = keyName self
    /\ slice (Some 16) (Some 32) ticket = IV self
    /\ slice (Some 32) (Some 80) ticket = cipher
    /\ AES_CBC_encrypt sk (IV self)
         (format_d now ++ IDENTIFIER ++ mk ++ [x00; x00; x00; x00])
       = Some cipher
    /\ slice (Some 80) None ticket
       = HMAC_SHA256 hk (slice None (Some 80) ticket).
Proof using HMAC_SHA256_length AES_new_accepts AES_CBC_encrypt_blocks weak_random_length strong_random_length.
  intros Hinit Hnow.
  destruct (SessionTicket_init_spec _ _ _ _ _ _ Hinit)
    as (Hwf & Hmk & _ & Hsk & Hhk & _ & _).
  destruct (issue_returns now self Hwf Hnow) as (cipher & Henc & Hlen & Hrun).
  destruct Hwf as (Hkn & Hiv & _).
  rewrite Hmk, Hsk in Henc. rewrite Hhk in Hrun.
  pose proof (HMAC_SHA256_length hk (keyName self ++ IV self ++ cipher))
    as Htag.
  destruct (ticket_slices _ _ _ _ Hkn Hiv Hlen Htag)
    as (Ht & S1 & S2 & S3 & S4 & S5).
  eexists _, cipher. unfold result. rewrite Hrun. cbn [snd].
  repeat split; try assumption. now rewrite S4, S5.
Qed.

(** Without any assumption on the ticket or the clock: a cipher object is
    only ever created with the IV stored in the ticket. *)
Lemma issue_cipher_ivs (now : Z) (self : SessionTicket) (iv : bytes) :
  In iv (cipher_ivs (trace (snd (issue now self)))) -> iv = IV self.
Proof using Type.
  unfold issue, trace, aes_new, ProtocolState_repr, aes_encrypt, hmac_digest,
    py_assert, bind, emit, ret, raise.
  cbn [snd fst state symmTicketKey IV keyName hmacTicketKey set_state
       set_issueDate issueDate identifier masterKey pad app].
  intros H.
  repeat (break_inner H; cbn [fst snd app cipher_ivs In] in H);
    intuition congruence.
Qed.

(** Whenever [issue] returns, the pair is the stored name and a string that
    starts with the stored name and the stored IV. *)
Lemma issue_result_shape (now : Z) (self : SessionTicket) (kn t : bytes) :
  result (snd (issue now self)) = Returned (kn, t) ->
  kn = keyName self
  /\ exists cipher tag, t = keyName self ++ IV self ++ cipher ++ tag.
Proof using Type.
  unfold issue, result, aes_new, ProtocolState_repr, aes_encrypt, hmac_digest,
    py_assert, bind, emit, ret, raise.
  cbn [snd fst state symmTicketKey IV keyName hmacTicketKey set_state
       set_issueDate issueDate identifier masterKey pad app].
  intros H.
  repeat (break_inner H; cbn [fst snd app] in H; try discriminate).
  injection H as <- <-. split; [reflexivity|]. eexists _, _. reflexivity.
Qed.

(** Whatever the ticket and the clock, [issue] starts by creating its
    cipher from the stored key and IV; every cipher event of the run works
    with that key and that IV, and the random source is never called. *)
Lemma issue_trace_shape (now : Z) (self : SessionTicket) :
  (exists rest,
      trace (snd (issue now self))
      = AesNew (symmTicketKey self) (IV self) :: rest)
  /\ (forall ev, In ev (trace (snd (issue now self))) ->
      is_random_event ev = false
      /\ (forall key iv, cipher_use ev = Some (key, iv) ->
          key = symmTicketKey self /\ iv = IV self)).
Proof using Type.
  unfold issue, trace, aes_new, ProtocolState_repr, aes_encrypt, hmac_digest,
    py_assert, bind, emit, ret, raise.
  cbn [snd fst state symmTicketKey IV keyName hmacTicketKey set_state
       set_issueDate issueDate identifier masterKey pad app].
  repeat match goal with
         | |- context [match ?x with _ => _ end] =>
             lazymatch x with
             | context [match _ with _ => _ end] => fail
             | _ => destruct x eqn:?
             end; cbn [fst snd app]
         end;
    (split; [eexists; reflexivity|]);
    intros ev Hev; cbn [In] in Hev;
    repeat (destruct Hev as [<- | Hev]);
    try contradiction;
    (split; [reflexivity|]); intros key iv [= <- <-] || intros key iv [=];
    split; reflexivity.
Qed.

(** C9, as the code has it: [issue] writes one attribute, the state's
    [issueDate], and leaves the name, the IV, both keys and the rest of the
    state as they were; it never calls the random source.  The name and the
    IV are those drawn by the constructor, so every call on the same
    object, whatever the clock, creates its cipher from the same key and
    the same IV, uses no other key or IV, and, when it returns, returns the
    same name and a ticket starting with the same name and IV. *)
Theorem issue_frame_and_iv_reuse (now now2 : Z) (self : SessionTicket) :
  let self' := fst (issue now self) in
  keyName self' = keyName self
  /\ IV self' = IV self
  /\ symmTicketKey self' = symmTicketKey self
  /\ hmacTicketKey self' = hmacTicketKey self
  /\ identifier (state self') = identifier (state self)
  /\ masterKey (state self') = masterKey (state self)
  /\ pad (state self') = pad (state self)
  /\ issueDate (state self') = PyStr (format_d now)
  /\ (exists rest1 rest2,
        trace (snd (issue now self))
        = AesNew (symmTicketKey self) (IV self) :: rest1
        /\ trace (snd (issue now2 self'))
           = AesNew (symmTicketKey self) (IV self) :: rest2)
  /\ (forall ev,
        In ev (trace (snd (issue now self)))
        \/ In ev (trace (snd (issue now2 self'))) ->
        is_random_event ev = false
        /\ (forall key iv, cipher_use ev = Some (key, iv) ->
            key = symmTicketKey self /\ iv = IV self))
  /\ (forall iv,
        In iv (cipher_ivs (trace (snd (issue now self))))
        \/ In iv (cipher_ivs (trace (snd (issue now2 self')))) ->
        iv = IV self)
  /\ (forall kn1 t1 kn2 t2,
        result (snd (issue now self)) = Returned (kn1, t1) ->
        result (snd (issue now2 self')) = Returned (kn2, t2) ->
        kn1 = keyName self /\ kn2 = keyName self
        /\ exists c1 h1 c2 h2,
             t1 = keyName self ++ IV self ++ c1 ++ h1
             /\ t2 = keyName self ++ IV self ++ c2 ++ h2).
Proof using Type.
  intros self'. repeat (split; [reflexivity|]).
  destruct (issue_trace_shape now self) as [[rest1 E1] F1].
  destruct (issue_trace_shape now2 self') as [[rest2 E2] F2].
  split; [|split; [|split]].
  - exists rest1, rest2. split; [exact E1 | exact E2].
  - intros ev [H | H]; [exact (F1 ev H) | exact (F2 ev H)].
  - intros iv [H | H]; apply issue_cipher_ivs in H; exact H.
  - intros kn1 t1 kn2 t2 H1 H2.
    apply issue_result_shape in H1, H2.
    destruct H1 as (-> & c1 & h1 & ->), H2 as (-> & c2 & h2 & ->).
    repeat split. now exists c1, h1, c2, h2.
Qed.

(** C1 on the code: the ticket issued for [mk] is accepted by
    [decryptTicket] under the matching name and keys and the state returned
    carries [mk], but its [issueDate] is [None] and not the timestamp
    recorded at issuance (the ten digits of [now]). *)
Theorem issue_decrypt_roundtrip_loses_issueDate (mk sk hk : bytes)
    (rng rng' : Rng) (self : SessionTicket) (now : Z) (g : Globals)
    (kn ticket : bytes) :
  result (SessionTicket_init mk sk hk rng) = Returned (self, rng') ->
  10 ^ 9 <= now < 10 ^ 10 ->
  g_keyName g = Some (keyName self) ->
  g_globalHMACKey g = Some hk ->
  g_globalAESKey g = Some sk ->
  result (snd (issue now self)) = Returned (kn, ticket) ->
  issueDate (state (fst (issue now self))) = PyStr (format_d now)
  /\ len (format_d now) = 10
  /\ exists st,
       result (decryptTicket g ticket) = Returned (Some st)
       /\ masterKey st = mk
       /\ issueDate st = PyNone.
Proof using HMAC_SHA256_length AES_new_accepts AES_CBC_encrypt_blocks AES_CBC_decrypt_encrypt weak_random_length strong_random_length.
  intros Hinit Hnow Hgk Hgh Hga Hissue.
  split; [reflexivity|].
  destruct (format_d_ten_digits now Hnow) as [Hd _]. split; [exact Hd|].
  destruct (SessionTicket_init_spec _ _ _ _ _ _ Hinit)
    as (Hwf & Hmk & _ & Hsk & Hhk & _ & _).
  destruct (issue_returns now self Hwf Hnow) as (cipher & Henc & Hlen & Hrun).
  destruct Hwf as (Hkn & Hiv & Hskl & _ & Hmkl & _).
  rewrite Hmk, Hsk in Henc. rewrite Hhk in Hrun. rewrite Hsk in Hskl.
  rewrite Hmk in Hmkl.
  unfold result in Hissue. rewrite Hrun in Hissue. cbn [snd] in Hissue.
  injection Hissue as <- <-.
  pose proof (HMAC_SHA256_length hk (keyName self ++ IV self ++ cipher))
    as Htag.
  destruct (ticket_slices _ _ _ _ Hkn Hiv Hlen Htag)
    as (Ht & S1 & S2 & S3 & S4 & S5).
  set (plain := format_d now ++ IDENTIFIER ++ mk ++ [x00; x00; x00; x00])
    in *.
  assert (Hid : slice (Some 10) (Some 28) plain = IDENTIFIER).
  { apply (slice_app3 (format_d now) IDENTIFIER (mk ++ [x00; x00; x00; x00]));
      rewrite !len_app, Hd, Hmkl; reflexivity. }
  assert (Hkey : slice (Some 28) (Some 44) plain = mk).
  { unfold plain. rewrite (app_assoc (format_d now)).
    apply (slice_app3 (format_d now ++ IDENTIFIER) mk [x00; x00; x00; x00]);
      rewrite !len_app, Hd; rewrite ?Hmkl; reflexivity. }
  destruct (decryptTicket_after_mac g _ hk sk plain Ht) as [Hyes _].
  - now rewrite S1.
  - exact Hgh.
  - rewrite (slice_from_minus32 _ Ht), S4, S5. reflexivity.
  - exact Hga.
  - rewrite S2. now apply AES_new_accepts.
  - rewrite S2, S3. now apply AES_CBC_decrypt_encrypt.
  - eexists. split; [exact (Hyes Hid)|]. split; [exact Hkey | reflexivity].
Qed.

(** ** Further properties of decryptTicket *)

(** The whole run on a 112-byte input with the expected name and a wrong
    tag. *)
Lemma decryptTicket_tag_mismatch (g : Globals) (ticket hk : bytes) :
  len ticket = 112 ->
  g_keyName g = Some (slice None (Some 16) ticket) ->
  g_globalHMACKey g = Some hk ->
  g_log g = true ->
  slice (Some 80) None ticket
    <> HMAC_SHA256 hk (slice None (Some 80) ticket) ->
  decryptTicket g ticket
  = ([HmacDigest hk (slice None (Some 80) ticket);
      LogDebug "Invalid HMAC. Probably no ticket."],
     Returned None).
Proof using Type.
  intros Hlen Hkn Hhk Hlog Hmac.
  unfold decryptTicket, log_debug.
  rewrite Hlen, Hkn, Hhk, Hlog, (slice_upto_minus32 _ Hlen),
    (slice_from_minus32 _ Hlen).
  simpl. rewrite bytes_eqb_refl. simpl.
  rewrite (bytes_eqb_neq (HMAC_SHA256 hk _) _) by (intros E; now apply Hmac).
  reflexivity.
Qed.

(** X2: the name filter comes first.  A 112-byte input whose first 16 bytes
    differ from the bound [keyName] is rejected with [None] after a single
    debug record: no digest is computed and no cipher is created. *)
Theorem decryptTicket_unknown_name (g : Globals) (ticket kn : bytes) :
  len ticket = 112 ->
  g_keyName g = Some kn ->
  slice None (Some 16) ticket <> kn ->
  g_log g = true ->
  decryptTicket g ticket
  = ([LogDebug "Ticket name not found. We are not dealing with a ticket."],
     Returned None).
Proof using Type.
  intros Hlen Hkn Hname Hlog.
  unfold decryptTicket, log_debug. rewrite Hlen, Hkn, Hlog. simpl.
  rewrite (bytes_eqb_neq _ _ Hname). reflexivity.
Qed.

(** X6: every [None] is announced by a log record, and the record tells
    which of the three checks failed and how far the run went: the name
    filter (nothing else done), the tag check (one digest), or the
    identifier check (digest, cipher object, decryption). *)
Theorem decryptTicket_rejection_logged (g : Globals) (ticket : bytes) :
  result (decryptTicket g ticket) = Returned None ->
  g_log g = true
  /\ (trace (decryptTicket g ticket)
      = [LogDebug
           "Ticket name not found. We are not dealing with a ticket."]
      \/ (exists hk,
            trace (decryptTicket g ticket)
            = [HmacDigest hk (slice None (Some (-32)) ticket);
               LogDebug "Invalid HMAC. Probably no ticket."])
      \/ (exists hk ak,
            trace (decryptTicket g ticket)
            = [HmacDigest hk (slice None (Some (-32)) ticket);
               AesNew ak (slice (Some 16) (Some 32) ticket);
               AesDecrypt ak (slice (Some 16) (Some 32) ticket)
                 (slice (Some 32) (Some (-32)) ticket);
               LogError "Invalid identifier. This could be a bug."])).
Proof using Type.
  run_decryptTicket. intros H.
  repeat (break_inner H; simpl in H |- *; try discriminate);
    (split; [first [reflexivity | assumption]|]);
    first [ left; reflexivity
          | right; left; eexists; reflexivity
          | right; right; eexists _, _; reflexivity ].
Qed.

(** X7: with the name [keyName] unbound, as the file leaves it, every
    112-byte input raises [NameError] before anything else happens. *)
Theorem decryptTicket_keyName_unbound (g : Globals) (ticket : bytes) :
  len ticket = 112 ->
  g_keyName g = None ->
  decryptTicket g ticket = ([], Raised (NameError "keyName")).
Proof using Type.
  intros Hlen Hkn. unfold decryptTicket. rewrite Hlen, Hkn. reflexivity.
Qed.

(** X8: with the name [log] unbound, as the file leaves it, [decryptTicket]
    never returns [None]: a run either accepts the ticket or raises. *)
Theorem decryptTicket_log_unbound (g : Globals) (ticket : bytes) :
  g_log g = false ->
  (exists st, result (decryptTicket g ticket) = Returned (Some st))
  \/ (exists e, result (decryptTicket g ticket) = Raised e).
Proof using Type.
  intros Hlog. run_decryptTicket. rewrite Hlog.
  repeat match goal with
         | |- context [match ?x with _ => _ end] =>
             lazymatch x with
             | context [match _ with _ => _ end] => fail
             | _ => destruct x eqn:?
             end; simpl
         end;
    first [left; eexists; reflexivity | right; eexists; reflexivity].
Qed.

(** X15: when the tag matches but [AES.new] refuses the bound key with the
    ticket's IV, the call raises [ValueError]; nothing is decrypted and
    nothing is logged. *)
Theorem decryptTicket_aes_key_refused (g : Globals) (ticket hk ak : bytes) :
  len ticket = 112 ->
  g_keyName g = Some (slice None (Some 16) ticket) ->
  g_globalHMACKey g = Some hk ->
  slice (Some 80) None ticket
    = HMAC_SHA256 hk (slice None (Some 80) ticket) ->
  g_globalAESKey g = Some ak ->
  AES_new_ok ak (slice (Some 16) (Some 32) ticket) = false ->
  decryptTicket g ticket
  = ([HmacDigest hk (slice None (Some 80) ticket);
      AesNew ak (slice (Some 16) (Some 32) ticket)],
     Raised ValueError).
Proof using Type.
  intros Hlen Hkn Hhk Hmac Hak Hnew.
  run_decryptTicket.
  rewrite Hlen, Hkn, Hhk, Hak, (slice_upto_minus32 _ Hlen),
    (slice_from_minus32 _ Hlen), Hmac.
  simpl. rewrite !bytes_eqb_refl. simpl. rewrite Hnew. reflexivity.
Qed.

(** X14: the state of an accepted ticket is the state the constructor
    builds around its master key: constant identifier, [issueDate] [None],
    zero padding, whatever bytes 0..10 and 44..48 of the plaintext are; and
    the master key has 16 bytes as soon as decryption keeps the length. *)
Theorem decryptTicket_state_shape (g : Globals) (ticket : bytes)
    (st : ProtocolState) :
  (forall key iv cipher plain,
      AES_CBC_decrypt key iv cipher = Some plain -> len plain = len cipher) ->
  result (decryptTicket g ticket) = Returned (Some st) ->
  st = ProtocolState_init (masterKey st) None
  /\ len (masterKey st) = 16.
Proof using Type.
  intros Hdec H.
  destruct (decryptTicket_accepts_inv _ _ _ H)
    as (hk & ak & plain & Hlen & _ & _ & _ & _ & Hplain & _ & ->).
  split; [reflexivity|]. cbn [masterKey ProtocolState_init].
  apply Hdec in Hplain.
  assert (Hc : len (slice (Some 32) (Some (-32)) ticket) = 48).
  { unfold slice, clamp_index. rewrite Hlen. cbn -[firstn skipn len].
    unfold len in *. rewrite length_firstn, length_skipn. lia. }
  rewrite Hc in Hplain.
  unfold slice, clamp_index. rewrite Hplain. cbn -[firstn skipn len].
  unfold len in *. rewrite length_firstn, length_skipn. lia.
Qed.

(** ** Further properties of ProtocolState and SessionTicket *)

(** X11: [isValid] returns a boolean only when the name read by its
    assertion is bound to a true value and [issueDate] is neither [None]
    nor a string; when [issueDate] is an integer the boolean is the expiry
    test. *)
Theorem isValid_returns_inv (g : Globals) (now : Z) (self : ProtocolState)
    (b : bool) :
  result (isValid g now self) = Returned b ->
  (exists v, g_issueDate g = Some v /\ truthy v = true)
  /\ issueDate self <> PyNone
  /\ (forall s, issueDate self <> PyStr s)
  /\ (forall d, issueDate self = PyInt d ->
      b = (now - d <=? SESSION_TICKET_LIFETIME)).
Proof using Type.
  unfold isValid, result, bind, global, py_assert, int_sub, ret, raise.
  intros H.
  destruct (g_issueDate g) as [v|]; [|discriminate]. simpl in H.
  destruct (truthy v) eqn:Hv; [|discriminate]. simpl in H.
  destruct (issueDate self) as [|d|]; try discriminate. simpl in H.
  split; [exists v; split; [reflexivity | exact Hv]|].
  split; [discriminate|]. split; [discriminate|].
  intros d' [= <-].
  rewrite Z.gtb_ltb in H. rewrite Z.leb_antisym.
  destruct (SESSION_TICKET_LIFETIME <? now - d); simpl in *; congruence.
Qed.

(** A state whose [issueDate] is no integer makes [isValid] raise,
    whatever the namespace and the clock. *)
Lemma isValid_raises_without_int_date (g : Globals) (now : Z)
    (self : ProtocolState) :
  (forall d, issueDate self <> PyInt d) ->
  exists e, isValid g now self = ([], Raised e).
Proof using Type.
  intros Hd.
  unfold isValid, bind, global, py_assert, int_sub, ret, raise.
  destruct (g_issueDate g) as [v|]; [|eexists; reflexivity]. simpl.
  destruct (truthy v); [|eexists; reflexivity]. simpl.
  destruct (issueDate self) as [|d|] eqn:E;
    [eexists; reflexivity | now destruct (Hd d) | eexists; reflexivity].
Qed.

(** X12: the expiry check cannot be run on any state the module hands out.
    On the state of a freshly constructed ticket, on the state of a ticket
    after [issue], and on the state returned by [decryptTicket], [isValid]
    raises, whatever the namespace and the clock: the first and the last
    hold [None], the second a string. *)
Theorem isValid_raises_on_module_states (g g' : Globals) (ticket : bytes)
    (mk sk hk : bytes) (rng rng' : Rng) (self : SessionTicket)
    (now now' : Z) (st : ProtocolState) :
  (result (SessionTicket_init mk sk hk rng) = Returned (self, rng')
   /\ (st = state self \/ st = state (fst (issue now self))))
  \/ result (decryptTicket g ticket) = Returned (Some st) ->
  exists e, isValid g' now' st = ([], Raised e).
Proof using Type.
  intros H. apply isValid_raises_without_int_date. intros d.
  destruct H as [[Hinit [-> | ->]] | H].
  - unfold SessionTicket_init, mycrypto_weak_random, mycrypto_strong_random,
      result, bind, py_assert, emit, ret, raise in Hinit.
    destruct (_ && _); [|discriminate].
    simpl in Hinit. injection Hinit as <- _. discriminate.
  - discriminate.
  - destruct (decryptTicket_accepts_inv _ _ _ H)
      as (? & ? & ? & _ & _ & _ & _ & _ & _ & _ & ->).
    discriminate.
Qed.

(** X13: the state returned by [decryptTicket] cannot be serialized again:
    [__repr__] raises [TypeError] on it, since its [issueDate] is [None]. *)
Theorem ProtocolState_repr_raises_after_decrypt (g : Globals)
    (ticket : bytes) (st : ProtocolState) :
  result (decryptTicket g ticket) = Returned (Some st) ->
  ProtocolState_repr st = ([], Raised TypeError).
Proof using Type.
  intros H.
  destruct (decryptTicket_accepts_inv _ _ _ H)
    as (? & ? & ? & _ & _ & _ & _ & _ & _ & _ & ->).
  reflexivity.
Qed.

(** With three 16-byte keys the constructor calls the random source twice:
    first [weak_random] for the name, then [strong_random] for the IV. *)
Lemma SessionTicket_init_draws (mk sk hk : bytes) (rng : Rng) :
  len mk = 16 -> len sk = 16 -> len hk = 16 ->
  trace (SessionTicket_init mk sk hk rng)
  = [WeakRandom NAME_LENGTH; StrongRandom IV_LENGTH].
Proof using Type.
  intros H1 H2 H3.
  unfold SessionTicket_init, mycrypto_weak_random, mycrypto_strong_random.
  rewrite H1, H2, H3. reflexivity.
Qed.

(** X9: the constructor's key check.  If the master key, the symmetric key
    or the HMAC key does not have 16 bytes, the constructor raises
    [AssertionError] with an empty trace: neither [weak_random] nor
    [strong_random] has been called. *)
Theorem SessionTicket_init_key_lengths (mk sk hk : bytes) (rng : Rng) :
  len mk <> 16 \/ len sk <> 16 \/ len hk <> 16 ->
  SessionTicket_init mk sk hk rng = ([], Raised AssertionError).
Proof using Type.
  intros H. unfold SessionTicket_init, bind, py_assert, ret, raise.
  destruct (_ && _) eqn:E; [exfalso|reflexivity].
  apply andb_true_iff in E. destruct E as [E E3].
  apply andb_true_iff in E. destruct E as [E1 E2].
  apply Z.eqb_eq in E1, E2, E3. lia.
Qed.

(** X10: before the clock reaches ten digits [issue] fails: it overwrites
    the state's [issueDate], creates the cipher object, and then raises
    [AssertionError] on the length of the serialized state; nothing is
    encrypted and no tag is computed. *)
Theorem issue_before_ten_digits (mk sk hk : bytes) (rng rng' : Rng)
    (self : SessionTicket) (now : Z) :
  result (SessionTicket_init mk sk hk rng) = Returned (self, rng') ->
  0 <= now < 10 ^ 9 ->
  snd (issue now self) = ([AesNew sk (IV self)], Raised AssertionError)
  /\ issueDate (state (fst (issue now self))) = PyStr (format_d now)
  /\ issueDate (state self) = PyNone.
Proof using AES_new_accepts weak_random_length strong_random_length.
  intros Hinit Hnow.
  destruct (SessionTicket_init_spec _ _ _ _ _ _ Hinit)
    as ((Hkn & Hiv & Hsk & Hhk & Hmk & Hid & Hpad) & _ & Hdate & Esk & _).
  split; [|split; [reflexivity | exact Hdate]].
  pose proof (AES_new_accepts _ _ Hsk Hiv) as Hnew.
  pose proof (format_d_at_most_nine_digits now Hnow) as Hd.
  assert (Hmod : (len (format_d now ++ IDENTIFIER ++ masterKey (state self)
                         ++ [x00; x00; x00; x00]) mod AES_block_size =? 0)
                 = false).
  { rewrite !len_app, Hmk.
    change (len IDENTIFIER) with 18. change (len [x00; x00; x00; x00]) with 4.
    unfold AES_block_size.
    assert (C : len (format_d now) = 1 \/ len (format_d now) = 2
                \/ len (format_d now) = 3 \/ len (format_d now) = 4
                \/ len (format_d now) = 5 \/ len (format_d now) = 6
                \/ len (format_d now) = 7 \/ len (format_d now) = 8
                \/ len (format_d now) = 9) by lia.
    repeat (destruct C as [-> | C]; [reflexivity|]). now rewrite C. }
  unfold issue, aes_new, ProtocolState_repr, aes_encrypt, hmac_digest,
    py_assert, bind, emit, ret, raise.
  cbn [snd fst state symmTicketKey IV keyName hmacTicketKey set_state
       set_issueDate issueDate identifier masterKey pad app].
  rewrite Hnew, Hid, Hpad, Hmod, Esk. reflexivity.
Qed.

(** X4: [issue] keeps no memory of earlier calls: on the object left by a
    previous [issue] it does exactly what it does on the original one, so
    the ticket issued depends on the clock and on what the constructor
    stored, and on nothing else. *)
Theorem issue_forgets_earlier_calls (now1 now2 : Z) (self : SessionTicket) :
  issue now2 (fst (issue now1 self)) = issue now2 self.
Proof using Type. reflexivity. Qed.

(** X3: a valid ticket whose tag is replaced is always caught.  Take the
    ticket issued for a constructed object and put any other 32 bytes in
    place of its tag: [decryptTicket], under the matching name and keys,
    returns [None] after the digest, without creating a cipher. *)
Theorem issued_ticket_tag_tamper_rejected (mk sk hk : bytes)
    (rng rng' : Rng) (self : SessionTicket) (now : Z) (g : Globals)
    (kn ticket tag' : bytes) :
  result (SessionTicket_init mk sk hk rng) = Returned (self, rng') ->
  10 ^ 9 <= now < 10 ^ 10 ->
  result (snd (issue now self)) = Returned (kn, ticket) ->
  g_keyName g = Some (keyName self) ->
  g_globalHMACKey g = Some hk ->
  g_log g = true ->
  len tag' = 32 ->
  tag' <> slice (Some 80) None ticket ->
  decryptTicket g (slice None (Some 80) ticket ++ tag')
  = ([HmacDigest hk (slice None (Some 80) ticket);
      LogDebug "Invalid HMAC. Probably no ticket."],
     Returned None).
Proof using HMAC_SHA256_length AES_new_accepts AES_CBC_encrypt_blocks weak_random_length strong_random_length.
  intros Hinit Hnow Hissue Hgk Hgh Hlog Htag' Hneq.
  destruct (SessionTicket_init_spec _ _ _ _ _ _ Hinit)
    as (Hwf & _ & _ & _ & Hhk & _ & _).
  destruct (issue_returns now self Hwf Hnow) as (cipher & _ & Hlen & Hrun).
  destruct Hwf as (Hkn & Hiv & _).
  rewrite Hhk in Hrun.
  unfold result in Hissue. rewrite Hrun in Hissue. cbn [snd] in Hissue.
  injection Hissue as <- <-.
  pose proof (HMAC_SHA256_length hk (keyName self ++ IV self ++ cipher))
    as Htag.
  destruct (ticket_slices _ _ _ _ Hkn Hiv Hlen Htag)
    as (_ & _ & _ & _ & S4 & S5).
  rewrite S4 in Hneq. rewrite S5.
  destruct (ticket_slices _ _ _ _ Hkn Hiv Hlen Htag')
    as (Ht & T1 & _ & _ & T4 & T5).
  replace ((keyName self ++ IV self ++ cipher) ++ tag')
    with (keyName self ++ IV self ++ cipher ++ tag')
    by (now rewrite <- !app_assoc).
  rewrite <- T5.
  apply decryptTicket_tag_mismatch; try assumption.
  - now rewrite T1.
  - rewrite T4, T5. exact Hneq.
Qed.

(** X5: a ticket issued under one HMAC key is rejected under another.  When
    [decryptTicket] runs with an HMAC key whose digest of the ticket's
    first 80 bytes differs from the digest under the issuing key, the
    ticket is rejected with [None] and no cipher is created. *)
Theorem issued_ticket_wrong_hmac_key_rejected (mk sk hk hk' : bytes)
    (rng rng' : Rng) (self : SessionTicket) (now : Z) (g : Globals)
    (kn ticket : bytes) :
  result (SessionTicket_init mk sk hk rng) = Returned (self, rng') ->
  10 ^ 9 <= now < 10 ^ 10 ->
  result (snd (issue now self)) = Returned (kn, ticket) ->
  g_keyName g = Some (keyName self) ->
  g_globalHMACKey g = Some hk' ->
  g_log g = true ->
  HMAC_SHA256 hk' (slice None (Some 80) ticket)
    <> HMAC_SHA256 hk (slice None (Some 80) ticket) ->
  decryptTicket g ticket
  = ([HmacDigest hk' (slice None (Some 80) ticket);
      LogDebug "Invalid HMAC. Probably no ticket."],
     Returned None).
Proof using HMAC_SHA256_length AES_new_accepts AES_CBC_encrypt_blocks weak_random_length strong_random_length.
  intros Hinit Hnow Hissue Hgk Hgh Hlog Hneq.
  destruct (SessionTicket_init_spec _ _ _ _ _ _ Hinit)
    as (Hwf & _ & _ & _ & Hhk & _ & _).
  destruct (issue_returns now self Hwf Hnow) as (cipher & _ & Hlen & Hrun).
  destruct Hwf as (Hkn & Hiv & _).
  rewrite Hhk in Hrun.
  unfold result in Hissue. rewrite Hrun in Hissue. cbn [snd] in Hissue.
  injection Hissue as <- <-.
  pose proof (HMAC_SHA256_length hk (keyName self ++ IV self ++ cipher))
    as Htag.
  destruct (ticket_slices _ _ _ _ Hkn Hiv Hlen Htag)
    as (Ht & S1 & _ & _ & S4 & S5).
  apply decryptTicket_tag_mismatch; try assumption.
  - now rewrite S1.
  - rewrite S4. rewrite S5 in *. intros E. apply Hneq. now rewrite E.
Qed.

End SessionTickets.

(** * The module run on the reference instance *)

Definition ref_init : bytes -> bytes -> bytes -> N -> M (SessionTicket * N) :=
  SessionTicket_init N ref_random ref_random.

Definition ref_issue : Z -> SessionTicket -> SessionTicket * M (bytes * bytes) :=
  issue ref_hmac ref_aes_new_ok ref_aes.

Definition ref_decryptTicket : Globals -> bytes -> M (option ProtocolState) :=
  decryptTicket ref_hmac ref_aes_new_ok ref_aes.

Definition sample_masterKey : bytes := repeat x00 16.
Definition sample_symmKey : bytes := repeat x01 16.
Definition sample_hmacKey : bytes := repeat x02 16.

(** What the constructor builds from the sample keys when the random source
    starts at 65: the name is sixteen "A", the IV sixteen "B". *)
Definition sample_ticket : SessionTicket :=
  {| keyName := repeat x41 16;
     IV := repeat x42 16;
     state := ProtocolState_init sample_masterKey None;
     symmTicketKey := sample_symmKey;
     hmacTicketKey := sample_hmacKey |}.

Definition sample_now : Z := 1700000000.

(** The wire ticket issued for [sample_ticket] at [sample_now]. *)
Definition sample_wire : bytes :=
  match result (snd (ref_issue sample_now sample_ticket)) with
  | Returned (_, ticket) => ticket
  | Raised _ => []
  end.

(** [sample_wire] with its last byte replaced. *)
Definition tampered_wire : bytes := firstn 111 sample_wire ++ [xff].

(** The namespace of a server holding the sample keys, with a logger. *)
Definition sample_globals : Globals :=
  {| g_keyName := Some (repeat x41 16);
     g_globalHMACKey := Some sample_hmacKey;
     g_globalAESKey := Some sample_symmKey;
     g_log := true;
     g_issueDate := None |}.

(** The same namespace with the name [issueDate] bound to a true value. *)
Definition globals_with_issueDate : Globals :=
  {| g_keyName := Some (repeat x41 16);
     g_globalHMACKey := Some sample_hmacKey;
     g_globalAESKey := Some sample_symmKey;
     g_log := true;
     g_issueDate := Some (PyInt 1) |}.

Lemma ref_hmac_length (key msg : bytes) : len (ref_hmac key msg) = 32.
Proof. reflexivity. Qed.

Lemma ref_aes_new_accepts (key iv : bytes) :
  len key = 16 -> len iv = 16 -> ref_aes_new_ok key iv = true.
Proof. intros Hk Hi. unfold ref_aes_new_ok. rewrite Hk, Hi. reflexivity. Qed.

Lemma len_rev (s : bytes) : len (rev s) = len s.
Proof. unfold len. now rewrite length_rev. Qed.

Lemma ref_aes_encrypt_blocks (key iv plain : bytes) :
  ref_aes_new_ok key iv = true ->
  len plain mod 16 = 0 ->
  exists cipher, ref_aes key iv plain = Some cipher /\ len cipher = len plain.
Proof.
  intros _ H. exists (rev plain). unfold ref_aes. rewrite H. simpl.
  split; [reflexivity | apply len_rev].
Qed.

Lemma ref_aes_decrypt_encrypt (key iv plain cipher : bytes) :
  ref_aes key iv plain = Some cipher -> ref_aes key iv cipher = Some plain.
Proof.
  unfold ref_aes. destruct (len plain mod 16 =? 0) eqn:E; [|discriminate].
  intros [= <-]. rewrite len_rev, E, rev_involutive. reflexivity.
Qed.

Lemma ref_random_length (n : Z) (seed : N) :
  0 <= n -> len (fst (ref_random n seed)) = n.
Proof.
  intros H. unfold ref_random, len. cbn [fst].
  rewrite repeat_length. now apply Z2Nat.id.
Qed.

Lemma ref_init_sample :
  ref_init sample_masterKey sample_symmKey sample_hmacKey 65%N
  = ([WeakRandom 16; StrongRandom 16], Returned (sample_ticket, 67%N)).
Proof. reflexivity. Qed.

Lemma sample_now_ten_digits : 10 ^ 9 <= sample_now < 10 ^ 10.
Proof. unfold sample_now. lia. Qed.

(** ** Instances on the sample run *)

(** The round trip of C1 on the sample ticket: accepted, master key
    recovered, [issueDate] lost. *)
Lemma issue_decrypt_roundtrip_sample :
  issueDate (state (fst (ref_issue sample_now sample_ticket)))
  = PyStr (format_d sample_now)
  /\ len (format_d sample_now) = 10
  /\ exists st,
       result (ref_decryptTicket sample_globals sample_wire)
       = Returned (Some st)
       /\ masterKey st = sample_masterKey
       /\ issueDate st = PyNone.
Proof.
  exact (issue_decrypt_roundtrip_loses_issueDate
           ref_hmac ref_aes_new_ok ref_aes ref_aes N ref_random ref_random
           ref_hmac_length ref_aes_new_accepts ref_aes_encrypt_blocks
           ref_aes_decrypt_encrypt ref_random_length ref_random_length
           sample_masterKey sample_symmKey sample_hmacKey 65%N 67%N
           sample_ticket sample_now sample_globals (repeat x41 16)
           sample_wire eq_refl sample_now_ten_digits eq_refl eq_refl eq_refl
           eq_refl).
Defined.

(** C2 on the tampered sample ticket. *)
Lemma decryptTicket_bad_mac_sample :
  result (ref_decryptTicket sample_globals tampered_wire) = Returned None
  /\ existsb is_aes_event
       (trace (ref_decryptTicket sample_globals tampered_wire)) = false
  /\ trace (ref_decryptTicket sample_globals tampered_wire)
     = [HmacDigest sample_hmacKey (slice None (Some 80) tampered_wire);
        LogDebug "Invalid HMAC. Probably no ticket."].
Proof.
  refine (decryptTicket_bad_mac_rejected ref_hmac ref_aes_new_ok ref_aes
            sample_globals tampered_wire (repeat x41 16) sample_hmacKey
            eq_refl eq_refl eq_refl eq_refl eq_refl _).
  intros E. vm_compute in E. discriminate E.
Defined.

(** C4 (amended) on an input of 111 bytes. *)
Lemma decryptTicket_wrong_length_sample :
  ref_decryptTicket sample_globals (repeat x00 111)
  = ([], Raised AssertionError).
Proof.
  refine (decryptTicket_wrong_length_raises ref_hmac ref_aes_new_ok ref_aes
            sample_globals (repeat x00 111) _).
  intros E. vm_compute in E. discriminate E.
Defined.

(** C4 as stated fails: an empty input, and the sample ticket cut by one
    byte, raise [AssertionError] where the claim has [None] returned. *)
Lemma decryptTicket_wrong_length_counterexample :
  result (ref_decryptTicket sample_globals []) = Raised AssertionError
  /\ result (ref_decryptTicket sample_globals (firstn 111 sample_wire))
     = Raised AssertionError.
Proof. split; reflexivity. Qed.

(** C8 on the sample ticket. *)
Lemma decryptTicket_identifier_check_sample :
  IDENTIFIER = list_byte_of_string "ScrambleSuitTicket"
  /\ (slice (Some 10) (Some 28)
        (format_d sample_now ++ IDENTIFIER ++ sample_masterKey
           ++ [x00; x00; x00; x00]) <> IDENTIFIER ->
      result (ref_decryptTicket sample_globals sample_wire) = Returned None)
  /\ (slice (Some 10) (Some 28)
        (format_d sample_now ++ IDENTIFIER ++ sample_masterKey
           ++ [x00; x00; x00; x00]) = IDENTIFIER ->
      result (ref_decryptTicket sample_globals sample_wire)
      = Returned
          (Some (ProtocolState_init
                   (slice (Some 28) (Some 44)
                      (format_d sample_now ++ IDENTIFIER ++ sample_masterKey
                         ++ [x00; x00; x00; x00]))
                   (Some (PyStr
                            (slice None (Some 10)
                               (format_d sample_now ++ IDENTIFIER
                                  ++ sample_masterKey
                                  ++ [x00; x00; x00; x00]))))))).
Proof.
  exact (decryptTicket_identifier_check ref_hmac ref_aes_new_ok ref_aes
           sample_globals sample_wire sample_hmacKey sample_symmKey
           (format_d sample_now ++ IDENTIFIER ++ sample_masterKey
              ++ [x00; x00; x00; x00])
           eq_refl eq_refl eq_refl eq_refl eq_refl eq_refl eq_refl eq_refl).
Defined.

(** C10 on the sample ticket: it carries "1700000000", the state returned
    has [None]. *)
Lemma decryptTicket_issueDate_None_sample :
  issueDate (ProtocolState_init sample_masterKey
               (Some (PyStr (format_d sample_now)))) = PyNone
  /\ issueDate (ProtocolState_init sample_masterKey
                  (Some (PyStr (format_d sample_now)))) = PyNone.
Proof.
  exact (decryptTicket_issueDate_None ref_hmac ref_aes_new_ok ref_aes
           sample_globals sample_wire
           (ProtocolState_init sample_masterKey
              (Some (PyStr (format_d sample_now))))
           sample_masterKey (Some (PyStr (format_d sample_now))) eq_refl).
Defined.

(** C3 on the sample ticket, checked at the moment of issuance (age 0). *)
Lemma isValid_raises_on_issued_state_sample :
  isValid 3600 module_globals sample_now
    (state (fst (ref_issue sample_now sample_ticket)))
  = ([], Raised (NameError "issueDate"))
  /\ isValid 3600 globals_with_issueDate sample_now
       (state (fst (ref_issue sample_now sample_ticket)))
     = ([], Raised TypeError).
Proof.
  exact (isValid_raises_on_issued_state ref_hmac ref_aes_new_ok ref_aes 3600
           globals_with_issueDate (PyInt 1) sample_now sample_now
           sample_ticket
           (state (fst (ref_issue sample_now sample_ticket)))
           eq_refl eq_refl).
Defined.

(** C7 on the sample master key and "1700000000". *)
Lemma ProtocolState_repr_layout_sample :
  let st := set_issueDate (ProtocolState_init sample_masterKey None)
              (PyStr (list_byte_of_string "1700000000")) in
  ProtocolState_repr st
  = ret (list_byte_of_string "1700000000"
           ++ list_byte_of_string "ScrambleSuitTicket" ++ sample_masterKey
           ++ [x00; x00; x00; x00])
  /\ identifier st = list_byte_of_string "ScrambleSuitTicket"
  /\ len (identifier st) = 18
  /\ pad st = [x00; x00; x00; x00]
  /\ (forall s, result (ProtocolState_repr st) = Returned s -> len s = 48).
Proof.
  exact (ProtocolState_repr_layout sample_masterKey
           (list_byte_of_string "1700000000") None eq_refl eq_refl eq_refl).
Defined.

(** C6 (amended) on the sample ticket. *)
Lemma issue_ticket_layout_sample :
  exists ticket cipher,
    result (snd (ref_issue sample_now sample_ticket))
    = Returned (keyName sample_ticket, ticket)
    /\ len ticket = 112
    /\ ticket = keyName sample_ticket ++ IV sample_ticket ++ cipher
                 ++ ref_hmac sample_hmacKey
                      (keyName sample_ticket ++ IV sample_ticket ++ cipher)
    /\ len (keyName sample_ticket) = 16
    /\ len (IV sample_ticket) = 16
    /\ len cipher = 48
    /\ len (ref_hmac sample_hmacKey
              (keyName sample_ticket ++ IV sample_ticket ++ cipher)) = 32
    /\ slice None (Some 16) ticket = keyName sample_ticket
    /\ slice (Some 16) (Some 32) ticket = IV sample_ticket
    /\ slice (Some 32) (Some 80) ticket = cipher
    /\ ref_aes sample_symmKey (IV sample_ticket)
         (format_d sample_now ++ IDENTIFIER ++ sample_masterKey
            ++ [x00; x00; x00; x00])
       = Some cipher
    /\ slice (Some 80) None ticket
       = ref_hmac sample_hmacKey (slice None (Some 80) ticket).
Proof.
  exact (issue_ticket_layout ref_hmac ref_aes_new_ok ref_aes N ref_random
           ref_random ref_hmac_length ref_aes_new_accepts
           ref_aes_encrypt_blocks ref_random_length ref_random_length
           sample_masterKey sample_symmKey sample_hmacKey 65%N 67%N
           sample_ticket sample_now eq_refl sample_now_ten_digits).
Defined.

(** C6 as stated fails: one second before the clock reaches ten digits the
    serialized state has 47 bytes, and [issue], on the ticket the
    constructor built from 16-byte keys, raises [AssertionError] after
    creating the cipher object; so it does one second after the clock
    leaves ten digits. *)
Lemma issue_ticket_layout_counterexample :
  result (ref_init sample_masterKey sample_symmKey sample_hmacKey 65%N)
  = Returned (sample_ticket, 67%N)
  /\ format_d 999999999 = list_byte_of_string "999999999"
  /\ snd (ref_issue 999999999 sample_ticket)
     = ([AesNew sample_symmKey (repeat x42 16)], Raised AssertionError)
  /\ format_d 10000000000 = list_byte_of_string "10000000000"
  /\ snd (ref_issue 10000000000 sample_ticket)
     = ([AesNew sample_symmKey (repeat x42 16)], Raised AssertionError).
Proof. repeat split. Qed.

(** C9 as stated fails: [issue] changes the state's [issueDate], and two
    calls on one ticket, a second apart, return the same name and two
    tickets carrying the same IV under the same key. *)
Lemma issue_frame_counterexample :
  issueDate (state sample_ticket) = PyNone
  /\ issueDate (state (fst (ref_issue sample_now sample_ticket)))
     = PyStr (list_byte_of_string "1700000000")
  /\ exists t1 t2,
       result (snd (ref_issue sample_now sample_ticket))
       = Returned (repeat x41 16, t1)
       /\ result (snd (ref_issue (sample_now + 1)
                         (fst (ref_issue sample_now sample_ticket))))
          = Returned (repeat x41 16, t2)
       /\ slice (Some 16) (Some 32) t1 = repeat x42 16
       /\ slice (Some 16) (Some 32) t2 = repeat x42 16
       /\ cipher_ivs (trace (snd (ref_issue sample_now sample_ticket)))
          = [repeat x42 16; repeat x42 16]
       /\ cipher_ivs (trace (snd (ref_issue (sample_now + 1)
                                   (fst (ref_issue sample_now sample_ticket)))))
          = [repeat x42 16; repeat x42 16].
Proof.
  split; [reflexivity|]. split; [reflexivity|].
  eexists _, _. repeat split.
Qed.

(** The cipher is reached on the sample ticket, so its name and tag
    matched. *)
Lemma decryptTicket_aes_needs_mac_sample :
  exists hk,
    len sample_wire = 112
    /\ g_keyName sample_globals = Some (slice None (Some 16) sample_wire)
    /\ g_globalHMACKey sample_globals = Some hk
    /\ ref_hmac hk (slice None (Some (-32)) sample_wire)
       = slice (Some (-32)) None sample_wire.
Proof.
  exact (decryptTicket_aes_needs_mac ref_hmac ref_aes_new_ok ref_aes
           sample_globals sample_wire eq_refl).
Defined.

(** ** Instances of the further properties on the sample run *)

(** The server's namespace without a logger. *)
Definition globals_without_log : Globals :=
  {| g_keyName := Some (repeat x41 16);
     g_globalHMACKey := Some sample_hmacKey;
     g_globalAESKey := Some sample_symmKey;
     g_log := false;
     g_issueDate := None |}.

(** The server's namespace with an AES key of 15 bytes. *)
Definition globals_with_short_aes_key : Globals :=
  {| g_keyName := Some (repeat x41 16);
     g_globalHMACKey := Some sample_hmacKey;
     g_globalAESKey := Some (repeat x01 15);
     g_log := true;
     g_issueDate := None |}.

(** The server's namespace with another HMAC key. *)
Definition globals_with_other_hmac_key : Globals :=
  {| g_keyName := Some (repeat x41 16);
     g_globalHMACKey := Some (repeat x03 16);
     g_globalAESKey := Some sample_symmKey;
     g_log := true;
     g_issueDate := None |}.

Lemma ref_aes_length (key iv cipher plain : bytes) :
  ref_aes key iv cipher = Some plain -> len plain = len cipher.
Proof.
  unfold ref_aes. destruct (len cipher mod 16 =? 0); [|discriminate].
  intros [= <-]. apply len_rev.
Qed.

Lemma decryptTicket_unknown_name_sample :
  ref_decryptTicket sample_globals (repeat x00 112)
  = ([LogDebug "Ticket name not found. We are not dealing with a ticket."],
     Returned None).
Proof.
  refine (decryptTicket_unknown_name ref_hmac ref_aes_new_ok ref_aes
            sample_globals (repeat x00 112) (repeat x41 16)
            eq_refl eq_refl _ eq_refl).
  intros E. vm_compute in E. discriminate E.
Defined.

Lemma decryptTicket_rejection_logged_sample :
  g_log sample_globals = true
  /\ (trace (ref_decryptTicket sample_globals tampered_wire)
      = [LogDebug
           "Ticket name not found. We are not dealing with a ticket."]
      \/ (exists hk,
            trace (ref_decryptTicket sample_globals tampered_wire)
            = [HmacDigest hk (slice None (Some (-32)) tampered_wire);
               LogDebug "Invalid HMAC. Probably no ticket."])
      \/ (exists hk ak,
            trace (ref_decryptTicket sample_globals tampered_wire)
            = [HmacDigest hk (slice None (Some (-32)) tampered_wire);
               AesNew ak (slice (Some 16) (Some 32) tampered_wire);
               AesDecrypt ak (slice (Some 16) (Some 32) tampered_wire)
                 (slice (Some 32) (Some (-32)) tampered_wire);
               LogError "Invalid identifier. This could be a bug."])).
Proof.
  exact (decryptTicket_rejection_logged ref_hmac ref_aes_new_ok ref_aes
           sample_globals tampered_wire eq_refl).
Defined.

Lemma decryptTicket_keyName_unbound_sample :
  ref_decryptTicket module_globals sample_wire
  = ([], Raised (NameError "keyName")).
Proof.
  exact (decryptTicket_keyName_unbound ref_hmac ref_aes_new_ok ref_aes
           module_globals sample_wire eq_refl eq_refl).
Defined.

Lemma decryptTicket_log_unbound_sample :
  (exists st,
      result (ref_decryptTicket globals_without_log tampered_wire)
      = Returned (Some st))
  \/ (exists e,
        result (ref_decryptTicket globals_without_log tampered_wire)
        = Raised e).
Proof.
  exact (decryptTicket_log_unbound ref_hmac ref_aes_new_ok ref_aes
           globals_without_log tampered_wire eq_refl).
Defined.

Lemma decryptTicket_aes_key_refused_sample :
  ref_decryptTicket globals_with_short_aes_key sample_wire
  = ([HmacDigest sample_hmacKey (slice None (Some 80) sample_wire);
      AesNew (repeat x01 15) (slice (Some 16) (Some 32) sample_wire)],
     Raised ValueError).
Proof.
  exact (decryptTicket_aes_key_refused ref_hmac ref_aes_new_ok ref_aes
           globals_with_short_aes_key sample_wire sample_hmacKey
           (repeat x01 15) eq_refl eq_refl eq_refl eq_refl eq_refl eq_refl).
Defined.

Lemma decryptTicket_state_shape_sample :
  ProtocolState_init sample_masterKey (Some (PyStr (format_d sample_now)))
  = ProtocolState_init
      (masterKey (ProtocolState_init sample_masterKey
                    (Some (PyStr (format_d sample_now))))) None
  /\ len (masterKey (ProtocolState_init sample_masterKey
                       (Some (PyStr (format_d sample_now))))) = 16.
Proof.
  exact (decryptTicket_state_shape ref_hmac ref_aes_new_ok ref_aes
           sample_globals sample_wire
           (ProtocolState_init sample_masterKey
              (Some (PyStr (format_d sample_now))))
           ref_aes_length eq_refl).
Defined.

Lemma isValid_returns_inv_sample :
  (exists v, g_issueDate globals_with_issueDate = Some v /\ truthy v = true)
  /\ issueDate (set_issueDate (ProtocolState_init sample_masterKey None)
                  (PyInt sample_now)) <> PyNone
  /\ (forall s,
        issueDate (set_issueDate (ProtocolState_init sample_masterKey None)
                     (PyInt sample_now)) <> PyStr s)
  /\ (forall d,
        issueDate (set_issueDate (ProtocolState_init sample_masterKey None)
                     (PyInt sample_now)) = PyInt d ->
        true = (sample_now + 60 - d <=? 3600)).
Proof.
  exact (isValid_returns_inv 3600 globals_with_issueDate (sample_now + 60)
           (set_issueDate (ProtocolState_init sample_masterKey None)
              (PyInt sample_now))
           true eq_refl).
Defined.

Lemma isValid_raises_on_module_states_sample :
  exists e,
    isValid 3600 globals_with_issueDate (sample_now + 60)
      (state (fst (ref_issue sample_now sample_ticket)))
    = ([], Raised e).
Proof.
  exact (isValid_raises_on_module_states ref_hmac ref_aes_new_ok ref_aes
           ref_aes 3600 N ref_random ref_random sample_globals
           globals_with_issueDate sample_wire sample_masterKey
           sample_symmKey sample_hmacKey 65%N 67%N sample_ticket sample_now
           (sample_now + 60)
           (state (fst (ref_issue sample_now sample_ticket)))
           (or_introl (conj eq_refl (or_intror eq_refl)))).
Defined.

Lemma ProtocolState_repr_raises_after_decrypt_sample :
  ProtocolState_repr
    (ProtocolState_init sample_masterKey
       (Some (PyStr (format_d sample_now))))
  = ([], Raised TypeError).
Proof.
  exact (ProtocolState_repr_raises_after_decrypt ref_hmac ref_aes_new_ok
           ref_aes sample_globals sample_wire
           (ProtocolState_init sample_masterKey
              (Some (PyStr (format_d sample_now))))
           eq_refl).
Defined.

Lemma SessionTicket_init_key_lengths_sample :
  ref_init (repeat x00 15) sample_symmKey sample_hmacKey 65%N
  = ([], Raised AssertionError).
Proof.
  refine (SessionTicket_init_key_lengths N ref_random ref_random
            (repeat x00 15) sample_symmKey sample_hmacKey 65%N
            (or_introl _)).
  intros E. vm_compute in E. discriminate E.
Defined.

Lemma issue_before_ten_digits_sample :
  snd (ref_issue 999999999 sample_ticket)
  = ([AesNew sample_symmKey (IV sample_ticket)], Raised AssertionError)
  /\ issueDate (state (fst (ref_issue 999999999 sample_ticket)))
     = PyStr (format_d 999999999)
  /\ issueDate (state sample_ticket) = PyNone.
Proof.
  refine (issue_before_ten_digits ref_hmac ref_aes_new_ok ref_aes N
            ref_random ref_random ref_aes_new_accepts ref_random_length
            ref_random_length sample_masterKey sample_symmKey sample_hmacKey
            65%N 67%N sample_ticket 999999999 eq_refl _).
  lia.
Defined.

Lemma issued_ticket_tag_tamper_sample :
  ref_decryptTicket sample_globals
    (slice None (Some 80) sample_wire ++ repeat xff 32)
  = ([HmacDigest sample_hmacKey (slice None (Some 80) sample_wire);
      LogDebug "Invalid HMAC. Probably no ticket."],
     Returned None).
Proof.
  refine (issued_ticket_tag_tamper_rejected ref_hmac ref_aes_new_ok ref_aes
            ref_aes N ref_random ref_random ref_hmac_length
            ref_aes_new_accepts ref_aes_encrypt_blocks ref_random_length
            ref_random_length sample_masterKey sample_symmKey sample_hmacKey
            65%N 67%N sample_ticket sample_now sample_globals
            (repeat x41 16) sample_wire (repeat xff 32)
            eq_refl sample_now_ten_digits eq_refl eq_refl eq_refl eq_refl
            eq_refl _).
  intros E. vm_compute in E. discriminate E.
Defined.

Lemma issued_ticket_wrong_hmac_key_sample :
  ref_decryptTicket globals_with_other_hmac_key sample_wire
  = ([HmacDigest (repeat x03 16) (slice None (Some 80) sample_wire);
      LogDebug "Invalid HMAC. Probably no ticket."],
     Returned None).
Proof.
  refine (issued_ticket_wrong_hmac_key_rejected ref_hmac ref_aes_new_ok
            ref_aes ref_aes N ref_random ref_random ref_hmac_length
            ref_aes_new_accepts ref_aes_encrypt_blocks ref_random_length
            ref_random_length sample_masterKey sample_symmKey sample_hmacKey
            (repeat x03 16) 65%N 67%N sample_ticket sample_now
            globals_with_other_hmac_key (repeat x41 16) sample_wire
            eq_refl sample_now_ten_digits eq_refl eq_refl eq_refl eq_refl _).
  intros E. vm_compute in E. discriminate E.
Defined.
